(** * zap-shift-server: the parcel-delivery REST handlers of [index.js]

    A shallow embedding of the Express route handlers of [src/index.js]
    (the full version of the server: users, riders, parcels, tracking and
    payments) over a small model of the MongoDB collections they touch, and
    the properties the specification states about them.

    Handlers are written in a state-and-exception monad whose state is the
    request's world: the five collections, the response the handler has
    sent, the clock, and a log of every call the handler makes on the
    database, on the identity provider and on the response object. *)

From Stdlib Require Import ZArith NArith Ascii String.
From stdpp Require Import base option list sorting gmap strings.

(** ** Values and documents *)

(** The BSON / JSON values that occur in the documents of this server:
    scalars, ObjectIds (the 12 bytes as a number) and dates (milliseconds
    since the epoch).  Numbers are the integral amounts and counters the
    API carries. *)
Inductive value : Type :=
  | VNull
  | VBool (b : bool)
  | VNum (n : Z)
  | VStr (s : string)
  | VOid (o : N)
  | VDate (t : Z).

#[global] Instance value_eq_dec : EqDecision value.
Proof. solve_decision. Defined.

(** A document (and a JSON object such as [req.body]) is a finite map from
    field names to values; a field that is [undefined] is absent. *)
Abbreviation doc := (gmap string value).

(** JavaScript truthiness of a possibly undefined field: [!x] is
    [negb (truthy x)]. *)
Definition truthy (x : option value) : bool :=
  match x with
  | None => false
  | Some VNull => false
  | Some (VBool b) => b
  | Some (VNum n) => negb (n =? 0)%Z
  | Some (VStr s) => negb (String.eqb s "")
  | Some (VOid _) => true
  | Some (VDate _) => true
  end.

(** The driver serialises an [undefined] field as BSON null
    ([ignoreUndefined] is off by default). *)
Definition bson (x : option value) : value := default VNull x.

(** ** ObjectId *)

Definition hex_digit (c : ascii) : option N :=
  let n := N_of_ascii c in
  if (48 <=? n)%N && (n <=? 57)%N then Some (n - 48)%N
  else if (97 <=? n)%N && (n <=? 102)%N then Some (n - 87)%N
  else if (65 <=? n)%N && (n <=? 70)%N then Some (n - 55)%N
  else None.

Fixpoint parse_hex (acc : N) (s : string) : option N :=
  match s with
  | EmptyString => Some acc
  | String c s' =>
      match hex_digit c with
      | Some d => parse_hex (16 * acc + d)%N s'
      | None => None
      end
  end.

(** [new ObjectId(s)] on a string (bson 6): accepted exactly when [s] is 24
    hexadecimal digits; [None] stands for the BSONError it throws
    otherwise. *)
Definition ObjectId_parse (s : string) : option N :=
  if Nat.eqb (String.length s) 24 then parse_hex 0 s else None.

(** [ObjectId.isValid(id)] on a string: whether the constructor accepts
    it. *)
Definition ObjectId_isValid (s : string) : bool :=
  match ObjectId_parse s with Some _ => true | None => false end.

(** ** Dates: [Date.prototype.toISOString] *)

Fixpoint pad_dec (width : nat) (n : Z) : string :=
  match width with
  | O => ""
  | S w =>
      pad_dec w (n / 10) +:+
      String (ascii_of_N (48 + Z.to_N (n mod 10))) ""
  end.

(** Year, month and day of a day count since 1970-01-01 (proleptic
    Gregorian calendar). *)
Definition civil_from_days (days : Z) : Z * Z * Z :=
  let z := (days + 719468)%Z in
  let era := (z / 146097)%Z in
  let doe := (z mod 146097)%Z in
  let yoe := ((doe - doe / 1460 + doe / 36524 - doe / 146096) / 365)%Z in
  let doy := (doe - (365 * yoe + yoe / 4 - yoe / 100))%Z in
  let mp := ((5 * doy + 2) / 153)%Z in
  let d := (doy - (153 * mp + 2) / 5 + 1)%Z in
  let m := (if (mp <? 10)%Z then mp + 3 else mp - 9)%Z in
  let y := (yoe + era * 400 + (if (m <=? 2)%Z then 1 else 0))%Z in
  (y, m, d).

Definition iso_year (y : Z) : string :=
  if (0 <=? y)%Z && (y <=? 9999)%Z then pad_dec 4 y
  else if (y <? 0)%Z then "-" +:+ pad_dec 6 (- y)
  else "+" +:+ pad_dec 6 y.

Definition toISOString (t : Z) : string :=
  let days := (t / 86400000)%Z in
  let ms := (t mod 86400000)%Z in
  let '(y, m, d) := civil_from_days days in
  iso_year y +:+ "-" +:+ pad_dec 2 m +:+ "-" +:+ pad_dec 2 d +:+ "T" +:+
  pad_dec 2 (ms / 3600000) +:+ ":" +:+ pad_dec 2 (ms / 60000 mod 60) +:+ ":" +:+
  pad_dec 2 (ms / 1000 mod 60) +:+ "." +:+ pad_dec 3 (ms mod 1000) +:+ "Z".

(** ** Collections *)

(** The five collections of the [parcelDB] database. A collection is the
    list of its documents in natural (insertion) order. *)
Inductive coll : Type := Users | Riders | Parcels | Payments | Tracking.

Record db : Type := mkDb {
  users : list doc;
  riders : list doc;
  parcels : list doc;
  payments : list doc;
  tracking : list doc
}.

Definition get_coll (c : coll) (s : db) : list doc :=
  match c with
  | Users => users s
  | Riders => riders s
  | Parcels => parcels s
  | Payments => payments s
  | Tracking => tracking s
  end.

Definition set_coll (c : coll) (l : list doc) (s : db) : db :=
  match c with
  | Users => mkDb l (riders s) (parcels s) (payments s) (tracking s)
  | Riders => mkDb (users s) l (parcels s) (payments s) (tracking s)
  | Parcels => mkDb (users s) (riders s) l (payments s) (tracking s)
  | Payments => mkDb (users s) (riders s) (parcels s) l (tracking s)
  | Tracking => mkDb (users s) (riders s) (parcels s) (payments s) l
  end.

(** A compiled regular expression: its source and its [test] function. *)
Record regexp : Type := mkRegexp {
  re_source : string;
  re_test : string -> bool
}.

(** The query filters the handlers build. *)
Inductive filter : Type :=
  | FAll                              (* {} *)
  | FEq (k : string) (v : value)      (* { k: v } *)
  | FRegex (k : string) (re : regexp) (* { k: { $regex: re } } *).

(** Whether a document satisfies a filter. An equality with null also
    selects the documents that lack the field. *)
Definition matches (f : filter) (d : doc) : bool :=
  match f with
  | FAll => true
  | FEq k VNull =>
      match d !! k with
      | None | Some VNull => true
      | Some _ => false
      end
  | FEq k v => bool_decide (d !! k = Some v)
  | FRegex k re =>
      match d !! k with
      | Some (VStr s) => re_test re s
      | _ => false
      end
  end.

Definition find_first (f : filter) (l : list doc) : option (nat * doc) :=
  list_find (fun d => matches f d = true) l.

Definition coll_findOne (f : filter) (l : list doc) : option doc :=
  snd <$> find_first f l.

(** BSON comparison order across the value types of this model: null (and
    missing) < numbers < strings < ObjectId < booleans < dates. *)
Definition bson_rank (x : option value) : nat :=
  match x with
  | None | Some VNull => 1
  | Some (VNum _) => 2
  | Some (VStr _) => 3
  | Some (VOid _) => 7
  | Some (VBool _) => 8
  | Some (VDate _) => 9
  end.

Definition bson_leb (a b : option value) : bool :=
  if bson_rank a <? bson_rank b then true
  else if bson_rank b <? bson_rank a then false
  else
    match a, b with
    | Some (VNum x), Some (VNum y) => (x <=? y)%Z
    | Some (VStr x), Some (VStr y) => String.leb x y
    | Some (VOid x), Some (VOid y) => (x <=? y)%N
    | Some (VBool x), Some (VBool y) => implb x y
    | Some (VDate x), Some (VDate y) => (x <=? y)%Z
    | _, _ => true
    end.

(** [d1] may come before [d2] under [{ sort: { k: -1 } }]. *)
Definition desc_by (k : string) (d1 d2 : doc) : Prop :=
  bson_leb (d2 !! k) (d1 !! k) = true.

#[global] Instance desc_by_dec k : RelDecision (desc_by k).
Proof. intros d1 d2. unfold desc_by. apply _. Defined.

(** [find(f, { sort: { k: -1 } }).limit(n).toArray()]; [sort] and [limit]
    are optional. *)
Definition coll_find (f : filter) (sort : option string) (limit : option nat)
    (l : list doc) : list doc :=
  let hits := List.filter (matches f) l in
  let sorted :=
    match sort with
    | Some k => merge_sort (desc_by k) hits
    | None => hits
    end in
  match limit with
  | Some n => take n sorted
  | None => sorted
  end.

Record update_result : Type := mkUpdateResult {
  matchedCount : nat;
  modifiedCount : nat
}.

(** [updateOne(f, { $set: set })]: the first matching document gets the
    fields of [set]; it counts as modified only when that changes it. *)
Definition coll_updateOne (f : filter) (set : doc) (l : list doc)
    : list doc * update_result :=
  match find_first f l with
  | None => (l, mkUpdateResult 0 0)
  | Some (i, d) =>
      let d' := set ∪ d in
      (<[i := d']> l, mkUpdateResult 1 (if decide (d' = d) then 0 else 1))
  end.

Definition coll_deleteOne (f : filter) (l : list doc) : list doc * nat :=
  match find_first f l with
  | None => (l, 0)
  | Some (i, _) => (delete i l, 1)
  end.

Definition id_taken (v : value) (l : list doc) : bool :=
  existsb (fun d => bool_decide (d !! "_id" = Some v)) l.

(** [insertOne(d)]: a document without [_id] gets the ObjectId [fresh] the
    driver generates; one that brings its own [_id] is refused (duplicate
    key, [None]) when that [_id] is already in the collection. *)
Definition coll_insertOne (fresh : N) (d : doc) (l : list doc)
    : option (list doc * value) :=
  match d !! "_id" with
  | None | Some VNull =>
      Some (l ++ [<["_id" := VOid fresh]> d], VOid fresh)
  | Some v =>
      if id_taken v l then None else Some (l ++ [d], v)
  end.

(** The largest ObjectId used as an [_id] in a collection, in a store. *)
Definition max_oid (l : list doc) : N :=
  foldr (fun d acc =>
           match d !! "_id" with
           | Some (VOid o) => N.max o acc
           | _ => acc
           end) 0%N l.

Definition max_oid_db (s : db) : N :=
  N.max (max_oid (users s))
    (N.max (max_oid (riders s))
       (N.max (max_oid (parcels s))
          (N.max (max_oid (payments s)) (max_oid (tracking s))))).

(** ** The world of one request *)

Record error : Type := mkError {
  err_name : string;
  err_message : string
}.

(** What a handler passes to [res.json] / [res.send]: an object or an
    array of documents. *)
Inductive body : Type :=
  | BObj (d : doc)
  | BArr (l : list doc).

Inductive dbcall : Type :=
  | CFindOne | CFind | CUpdateOne | CInsertOne | CDeleteOne.

(** The calls a handler makes on its collaborators, in order. [ERes code b]
    is a call of [res.json(b)] (or [res.send(b)]) made while
    [res.statusCode] is [code], whether or not the response could still be
    sent. *)
Inductive event : Type :=
  | EDb (c : coll) (op : dbcall)
  | EVerifyIdToken (token : string)
  | ERes (code : nat) (b : body)
  | EConsoleError
  | ENext.

Record world : Type := mkWorld {
  store : db;                    (* the collections *)
  statusCode : nat;              (* res.statusCode, 200 until res.status *)
  sent : option (nat * body);    (* the response the handler has sent *)
  rejected : option error;       (* the error an async handler rejected with *)
  log : list event;              (* calls made so far *)
  clock : nat -> Z;              (* what the k-th [new Date()] reads *)
  reads : nat;                   (* number of clock reads so far *)
  minted : N                     (* largest ObjectId generated so far *)
}.

Definition set_store (s : db) (w : world) : world :=
  mkWorld s (statusCode w) (sent w) (rejected w) (log w) (clock w) (reads w)
    (minted w).
Definition set_statusCode (c : nat) (w : world) : world :=
  mkWorld (store w) c (sent w) (rejected w) (log w) (clock w) (reads w)
    (minted w).
Definition set_sent (r : option (nat * body)) (w : world) : world :=
  mkWorld (store w) (statusCode w) r (rejected w) (log w) (clock w) (reads w)
    (minted w).
Definition set_rejected (e : option error) (w : world) : world :=
  mkWorld (store w) (statusCode w) (sent w) e (log w) (clock w) (reads w)
    (minted w).
Definition add_log (e : event) (w : world) : world :=
  mkWorld (store w) (statusCode w) (sent w) (rejected w) (log w ++ [e])
    (clock w) (reads w) (minted w).
Definition tick (w : world) : world :=
  mkWorld (store w) (statusCode w) (sent w) (rejected w) (log w) (clock w)
    (S (reads w)) (minted w).
Definition set_minted (o : N) (w : world) : world :=
  mkWorld (store w) (statusCode w) (sent w) (rejected w) (log w) (clock w)
    (reads w) o.

(** ** The handler monad: state and exceptions *)

Inductive outcome (A : Type) : Type :=
  | Ret (a : A)
  | Throw (e : error).
Arguments Ret {A} a.
Arguments Throw {A} e.

Definition M (A : Type) : Type := world -> outcome A * world.

#[global] Instance M_ret : MRet M := fun A a w => (Ret a, w).
#[global] Instance M_bind : MBind M := fun A B f m w =>
  match m w with
  | (Ret a, w') => f a w'
  | (Throw e, w') => (Throw e, w')
  end.

Definition throw {A : Type} (e : error) : M A := fun w => (Throw e, w).

(** [try { m } catch (error) { h error }] *)
Definition try_catch {A : Type} (m : M A) (h : error -> M A) : M A :=
  fun w =>
    match m w with
    | (Ret a, w') => (Ret a, w')
    | (Throw e, w') => h e w'
    end.

(** Running an async function whose promise nobody awaits: an exception
    inside it does not reach the caller, the promise is rejected. *)
Definition detach (m : M unit) : M unit :=
  fun w =>
    match m w with
    | (Ret _, w') => (Ret tt, w')
    | (Throw e, w') => (Ret tt, set_rejected (Some e) w')
    end.

Definition emit (e : event) : M unit := fun w => (Ret tt, add_log e w).

(** *** Errors of the platform *)

Definition ERR_HTTP_HEADERS_SENT : error :=
  mkError "Error" "Cannot set headers after they are sent to the client".
Definition BSONError_input : error :=
  mkError "BSONError"
    "input must be a 24 character hex string, 12 byte Uint8Array, or an integer".
Definition BSONError_type : error :=
  mkError "BSONError" "Argument passed in does not match the accepted types".
Definition E11000 : error :=
  mkError "MongoServerError" "E11000 duplicate key error".
Definition ReferenceError_err : error :=
  mkError "ReferenceError" "err is not defined".
Definition SyntaxError_regexp : error :=
  mkError "SyntaxError" "Invalid regular expression".
Definition FirebaseAuthError : error :=
  mkError "FirebaseAuthError" "Decoding Firebase ID token failed".

(** *** Express response *)

(** [res.status(code)] only records the code. *)
Definition res_status (code : nat) : M unit :=
  fun w => (Ret tt, set_statusCode code w).

(** [res.json(b)] and [res.send(b)] send the response with the recorded
    status code; once a response has been sent they throw, the headers
    being sent. *)
Definition res_json (b : body) : M unit :=
  fun w =>
    let w1 := add_log (ERes (statusCode w) b) w in
    match sent w1 with
    | Some _ => (Throw ERR_HTTP_HEADERS_SENT, w1)
    | None => (Ret tt, set_sent (Some (statusCode w1, b)) w1)
    end.

(** [res.status(code).json(b)] *)
Definition res_send (code : nat) (b : body) : M unit :=
  res_status code;; res_json b.

Definition console_error : M unit := emit EConsoleError.

(** [console.error(..., err)] where no variable [err] is in scope: the
    argument cannot be evaluated. *)
Definition console_error_err : M unit := throw ReferenceError_err.

(** [new Date()] *)
Definition Date_new : M Z :=
  fun w => (Ret (clock w (reads w)), tick w).

(** *** ObjectId construction *)

(** A generated ObjectId is one no document of the store carries and that
    was not generated before. *)
Definition ObjectId_generate : M N :=
  fun w =>
    let o := N.succ (N.max (minted w) (max_oid_db (store w))) in
    (Ret o, set_minted o w).

(** [new ObjectId(x)] (bson 6): null, undefined and numbers generate an
    id; a string must be 24 hex digits; other values are refused. *)
Definition ObjectId_new (x : option value) : M N :=
  match x with
  | None | Some VNull | Some (VNum _) => ObjectId_generate
  | Some (VStr s) =>
      match ObjectId_parse s with
      | Some o => mret o
      | None => throw BSONError_input
      end
  | Some (VOid o) => mret o
  | Some (VBool _) | Some (VDate _) => throw BSONError_type
  end.

(** *** Collection calls *)

Definition findOne (c : coll) (f : filter) : M (option doc) :=
  fun w =>
    let w1 := add_log (EDb c CFindOne) w in
    (Ret (coll_findOne f (get_coll c (store w1))), w1).

Definition find_toArray (c : coll) (f : filter) (sort : option string)
    (limit : option nat) : M (list doc) :=
  fun w =>
    let w1 := add_log (EDb c CFind) w in
    (Ret (coll_find f sort limit (get_coll c (store w1))), w1).

Definition updateOne (c : coll) (f : filter) (set : doc) : M update_result :=
  fun w =>
    let w1 := add_log (EDb c CUpdateOne) w in
    let '(l', r) := coll_updateOne f set (get_coll c (store w1)) in
    (Ret r, set_store (set_coll c l' (store w1)) w1).

Definition deleteOne (c : coll) (f : filter) : M nat :=
  fun w =>
    let w1 := add_log (EDb c CDeleteOne) w in
    let '(l', n) := coll_deleteOne f (get_coll c (store w1)) in
    (Ret n, set_store (set_coll c l' (store w1)) w1).

Definition insertOne (c : coll) (d : doc) : M value :=
  fun w =>
    let w1 := add_log (EDb c CInsertOne) w in
    let fresh := N.succ (N.max (minted w1) (max_oid_db (store w1))) in
    match coll_insertOne fresh d (get_coll c (store w1)) with
    | None => (Throw E11000, w1)
    | Some (l', id) => (Ret id, set_store (set_coll c l' (store w1)) w1)
    end.

(** The JSON of an [UpdateResult]. *)
Definition update_result_doc (r : update_result) : doc :=
  list_to_map
    [("acknowledged", VBool true);
     ("modifiedCount", VNum (Z.of_nat (modifiedCount r)));
     ("upsertedId", VNull);
     ("upsertedCount", VNum 0);
     ("matchedCount", VNum (Z.of_nat (matchedCount r)))].

(** ** Requests *)

Record request : Type := mkRequest {
  authorization : option string;   (* req.headers.authorization *)
  param_id : string;               (* req.params.id *)
  query_email : option string;     (* req.query.email *)
  req_body : doc;                  (* req.body *)
  req_user : option doc            (* req.user *)
}.

Definition set_user (u : doc) (r : request) : request :=
  mkRequest (authorization r) (param_id r) (query_email r) (req_body r)
    (Some u).

(** [s.split(sep)] for a one-character separator. *)
Fixpoint split (sep : ascii) (s : string) : list string :=
  match s with
  | EmptyString => [EmptyString]
  | String c s' =>
      if Ascii.eqb c sep then EmptyString :: split sep s'
      else
        match split sep s' with
        | h :: t => String c h :: t
        | [] => [String c EmptyString]
        end
  end.

(** [xs.includes(x)] on an array of strings. *)
Definition includes (xs : list string) (x : option value) : bool :=
  match x with
  | Some (VStr s) => bool_decide (s ∈ xs)
  | _ => false
  end.

Definition truthy_str (x : option string) : bool :=
  match x with
  | None => false
  | Some s => negb (String.eqb s "")
  end.

(** [x.startsWith(p)], for an [x] already known to be a string. *)
Definition startsWith (p : string) (x : option string) : bool :=
  match x with
  | None => false
  | Some s => String.prefix p s
  end.

Definition msg (k : string) (s : string) : body := BObj {[ k := VStr s ]}.

(** [authHeader.split(" ")[1]] *)
Definition token_of (authHeader : option string) : option string :=
  split " " (default "" authHeader) !! 1.

(** The record POST /payments inserts (index.js 479-487); [t1] and [t2]
    are the two clock reads. *)
Definition paymentDoc (parcelId email amount paymentMethod transactionId
    : option value) (t1 t2 : Z) : doc :=
  list_to_map
    [("parcelId", bson parcelId);
     ("email", bson email);
     ("amount", bson amount);
     ("paymentMethod", bson paymentMethod);
     ("transactionId", bson transactionId);
     ("paid_at_string", VStr (toISOString t1));
     ("paid_at", VDate t2)].

(** ** The handlers of [index.js] *)

Section Handlers.

(** [admin.auth().verifyIdToken]: the decoded claims of a token the
    identity provider accepts, [None] when it rejects the token. *)
Variable verifyIdToken : string -> option doc.

(** [new RegExp(source, "i")]: [None] when the source is not a regular
    expression (SyntaxError). *)
Variable RegExp_i : string -> option regexp.

Definition admin_verifyIdToken (token : string) : M doc :=
  fun w =>
    let w1 := add_log (EVerifyIdToken token) w in
    match verifyIdToken token with
    | Some claims => (Ret claims, w1)
    | None => (Throw FirebaseAuthError, w1)
    end.

Definition RegExp_new (source : string) : M regexp :=
  match RegExp_i source with
  | Some re => mret re
  | None => throw SyntaxError_regexp
  end.

(** [verifyFBToken] (index.js 134-154). [next] is the rest of the route:
    it runs as an async function of its own. *)
Definition verifyFBToken (req : request) (next : request -> M unit)
    : M unit :=
  let authHeader := authorization req in
  if negb (truthy_str authHeader) || negb (startsWith "Bearer " authHeader)
  then res_send 401 (msg "message" "Unauthorized: No token provided")
  else
    let token := token_of authHeader in
    if negb (truthy_str token)
    then res_send 401 (msg "message" "Unauthorized Access")
    else
      try_catch
        (decodedToken ← admin_verifyIdToken (default "" token);
         emit ENext;;
         detach (next (set_user decodedToken req)))
        (fun error =>
           console_error;;
           res_send 403 (msg "message" "Forbidden: Invalid or expired token")).

(** GET /users/search (index.js 164-187) *)
Definition get_users_search (req : request) : M unit :=
  try_catch
    (let emailQuery := query_email req in
     if negb (truthy_str emailQuery)
     then res_send 400 (msg "message" "Email is required")
     else
       re ← RegExp_new (default "" emailQuery);
       users ← find_toArray Users (FRegex "email" re) None (Some 10);
       res_send 200 (BArr users))
    (fun error =>
       console_error;;
       res_send 500 (msg "error" (err_message error))).

(** PATCH /users/:id/role (index.js 190-221) *)
Definition patch_users_role (req : request) : M unit :=
  let id := param_id req in
  let role := req_body req !! "role" in
  if negb (includes ["admin"; "user"] role)
  then res_send 400
         (msg "message" "Invalid role. Only 'admin' or 'user' allowed.")
  else
    try_catch
      (oid ← ObjectId_new (Some (VStr id));
       result ← updateOne Users (FEq "_id" (VOid oid))
                  {[ "role" := bson role ]};
       if Nat.eqb (modifiedCount result) 0
       then res_send 404 (msg "message" "User not found or role already set")
       else
         res_send 200
           (BObj (list_to_map
              [("message",
                VStr ("User role updated to " +:+
                      match role with Some (VStr r) => r | _ => "" end));
               ("modifiedCount",
                VNum (Z.of_nat (modifiedCount result)))])))
      (fun error =>
         console_error;;
         res_send 500
           (BObj (list_to_map
              [("message", VStr "Server error");
               ("error", VStr (err_message error))]))).

(** POST /users (index.js 224-248) *)
Definition post_users (req : request) : M unit :=
  try_catch
    (let email := req_body req !! "email" in
     userExists ← findOne Users (FEq "email" (bson email));
     match userExists with
     | Some _ =>
         now ← Date_new;
         _ ← updateOne Users (FEq "email" (bson email))
               {[ "last_log_in" := VStr (toISOString now) ]};
         res_send 200
           (BObj (list_to_map
              [("message", VStr "User already exists!");
               ("inserted", VBool false)]))
     | None =>
         let user := req_body req in
         insertedId ← insertOne Users user;
         res_send 201
           (BObj (list_to_map
              [("message", VStr "User created");
               ("inserted", VBool true);
               ("insertedId", insertedId)]))
     end)
    (fun error => res_send 500 (msg "error" (err_message error))).

(** PATCH /riders/:id (index.js 295-312); no try/catch. *)
Definition patch_riders (req : request) : M unit :=
  let id := param_id req in
  let status := req_body req !! "status" in
  let email := req_body req !! "email" in
  oid ← ObjectId_new (Some (VStr id));
  result ← updateOne Riders (FEq "_id" (VOid oid))
             {[ "status" := bson status ]};
  (if bool_decide (status = Some (VStr "accepted"))
   then _ ← updateOne Users (FEq "email" (bson email))
              {[ "role" := VStr "rider" ]}; mret tt
   else mret tt);;
  res_json (BObj (update_result_doc result)).

(** GET /parcels/:id (index.js 332-352) *)
Definition get_parcel (req : request) : M unit :=
  let id := param_id req in
  if negb (ObjectId_isValid id)
  then res_send 400 (msg "error" "Invalid parcel ID")
  else
    try_catch
      (oid ← ObjectId_new (Some (VStr id));
       parcel ← findOne Parcels (FEq "_id" (VOid oid));
       match parcel with
       | None => res_send 404 (msg "error" "Parcel not found")
       | Some p => res_json (BObj p)
       end)
      (fun error =>
         console_error;;
         res_send 500 (msg "error" "Internal Server Error")).

(** DELETE /parcels/:id (index.js 366-388) *)
Definition delete_parcel (req : request) : M unit :=
  try_catch
    (let id := param_id req in
     if negb (ObjectId_isValid id)
     then res_send 400 (msg "message" "Invalid parcel ID.")
     else
       oid ← ObjectId_new (Some (VStr id));
       deletedCount ← deleteOne Parcels (FEq "_id" (VOid oid));
       if Nat.eqb deletedCount 0
       then res_send 404 (msg "message" "Parcel not found.")
       else
         res_send 200
           (BObj (list_to_map
              [("message", VStr "Parcel deleted successfully.");
               ("deletedCount", VNum (Z.of_nat deletedCount))])))
    (fun error =>
       console_error;;
       res_send 500 (msg "message" "Internal Server Error")).

(** GET /payments, the handler behind [verifyFBToken]
    (index.js 438-455). The 403 branch has no [return]. *)
Definition get_payments (req : request) : M unit :=
  try_catch
    (let userEmail := query_email req in
     (if bool_decide ((req_user req ≫= fun u => u !! "email")
                      ≠ (VStr <$> userEmail))
      then res_send 403 (msg "message" "Unauthorized access!")
      else mret tt);;
     let query :=
       if truthy_str userEmail
       then FEq "email" (VStr (default "" userEmail))
       else FAll in
     payments ← find_toArray Payments query (Some "paid_at") None;
     res_json (BArr payments))
    (fun error =>
       console_error;;
       res_send 500 (msg "message" "Failed to get payments")).

Definition route_get_payments (req : request) : M unit :=
  verifyFBToken req get_payments.

(** POST /payments (index.js 458-498). The catch block names [err], a
    variable that does not exist: reaching it throws a ReferenceError. *)
Definition post_payments (req : request) : M unit :=
  try_catch
    (let parcelId := req_body req !! "parcelId" in
     let email := req_body req !! "email" in
     let amount := req_body req !! "amount" in
     let paymentMethod := req_body req !! "paymentMethod" in
     let transactionId := req_body req !! "transactionId" in
     if negb (truthy parcelId) || negb (truthy email) || negb (truthy amount)
     then res_send 400 (msg "error" "Missing required fields")
     else
       oid ← ObjectId_new parcelId;
       updateResult ← updateOne Parcels (FEq "_id" (VOid oid))
                        {[ "payment_status" := VStr "paid" ]};
       if Nat.eqb (modifiedCount updateResult) 0
       then res_send 404 (msg "message" "Parcel not found or already paid!")
       else
         t1 ← Date_new;
         t2 ← Date_new;
         insertedId ← insertOne Payments
                        (paymentDoc parcelId email amount paymentMethod
                           transactionId t1 t2);
         res_send 201
           (BObj (list_to_map
              [("message",
                VStr "Payment recorded and parcel marked as recorded!");
               ("insertedId", insertedId)])))
    (fun error =>
       console_error_err;;
       res_send 500 (msg "error" "Internal Server Error")).

(** Express calls a route's async handler on a fresh response and does
    not await it: what the request leaves behind. *)
Definition new_world (s : db) (clk : nat -> Z) : world :=
  mkWorld s 200 None None [] clk 0 0.

Definition serve (h : M unit) (s : db) (clk : nat -> Z) : world :=
  snd (detach h (new_world s clk)).

End Handlers.

(** ** What a request leaves behind: observations *)

(** The status code of the response the handler sent, if it sent one. *)
Definition status (w : world) : option nat := fst <$> sent w.

Definition is_db_call (e : event) : bool :=
  match e with
  | EDb _ _ => true
  | _ => false
  end.

(** The calls the handler made on the store. *)
Definition db_calls (w : world) : list event :=
  List.filter is_db_call (log w).

(** The documents of an array response. *)
Definition records (w : world) : list doc :=
  match sent w with
  | Some (_, BArr l) => l
  | _ => []
  end.

(** The ObjectId a request value spells: a string of 24 hex digits (or an
    ObjectId itself). *)
Definition names_oid (x : option value) : option N :=
  match x with
  | Some (VStr s) => ObjectId_parse s
  | Some (VOid o) => Some o
  | _ => None
  end.

(** The parcel (user, rider) an identifier of a request refers to: the
    stored document whose [_id] is the ObjectId the identifier spells. *)
Definition refers_to (x : option value) (l : list doc) : option doc :=
  match names_oid x with
  | Some o => coll_findOne (FEq "_id" (VOid o)) l
  | None => None
  end.

Definition is_hex (c : ascii) : bool :=
  match hex_digit c with
  | Some _ => true
  | None => false
  end.

(** An identifier is well formed when it is 24 characters, all of them
    hexadecimal digits; malformed when it has another length or a
    character that is not one. *)
Definition well_formed_id (s : string) : Prop :=
  String.length s = 24 /\ Forall (fun c => is_hex c = true) (list_ascii_of_string s).

Definition malformed_id (s : string) : Prop :=
  String.length s <> 24 \/ Exists (fun c => is_hex c = false) (list_ascii_of_string s).

(** ** Sample data *)

Definition sample_clock (k : nat) : Z := (1751328000123 + Z.of_nat k)%Z.

Definition sample_parcel_id : string := "64b7f0c2a1b2c3d4e5f60001".
Definition sample_rider_id : string := "64b7f0c2a1b2c3d4e5f60002".
Definition sample_user_id : string := "64b7f0c2a1b2c3d4e5f60003".

Definition oid_of (s : string) : value := VOid (default 0%N (ObjectId_parse s)).

Definition sample_parcel : doc :=
  list_to_map
    [("_id", oid_of sample_parcel_id);
     ("created_by", VStr "alice@example.com");
     ("payment_status", VStr "unpaid")].

Definition sample_rider : doc :=
  list_to_map
    [("_id", oid_of sample_rider_id);
     ("email", VStr "alice@example.com");
     ("status", VStr "pending")].

Definition sample_user : doc :=
  list_to_map
    [("_id", oid_of sample_user_id);
     ("email", VStr "alice@example.com");
     ("role", VStr "user")].

Definition sample_db : db :=
  mkDb [sample_user] [sample_rider] [sample_parcel] [] [].

Definition sample_request (id : string) (email : option string) (b : doc)
    : request :=
  mkRequest None id email b None.

Definition sample_payment (parcelId : string) : request :=
  sample_request "" None
    (list_to_map
       [("parcelId", VStr parcelId);
        ("email", VStr "alice@example.com");
        ("amount", VNum 500);
        ("paymentMethod", VStr "card");
        ("transactionId", VStr "pi_123")]).

(** An identity provider that knows one token. *)
Definition sample_verifyIdToken (token : string) : option doc :=
  if String.eqb token "alice-token"
  then Some {[ "email" := VStr "alice@example.com" ]}
  else None.

Definition lower_ascii (c : ascii) : ascii :=
  let n := N_of_ascii c in
  if (65 <=? n)%N && (n <=? 90)%N then ascii_of_N (n + 32) else c.

Fixpoint lower (s : string) : string :=
  match s with
  | EmptyString => EmptyString
  | String c s' => String (lower_ascii c) (lower s')
  end.

Fixpoint contains (needle hay : string) : bool :=
  String.prefix needle hay
  || match hay with
     | EmptyString => false
     | String _ hay' => contains needle hay'
     end.

(** A stand-in for [new RegExp(source, "i")] on sources without
    metacharacters: case-insensitive search of the source text. *)
Definition sample_RegExp_i (source : string) : option regexp :=
  Some (mkRegexp source (fun subject => contains (lower source) (lower subject))).

(** ** Responses and requests the properties speak of *)

Definition unknown_parcel_id : string := "64b7f0c2a1b2c3d4e5f6ffff".

(** The store after the sample payment has been recorded once. *)
Definition paid_db : db :=
  store (serve (post_payments (sample_payment sample_parcel_id))
           sample_db sample_clock).

Definition forbidden_token : body :=
  msg "message" "Forbidden: Invalid or expired token".

(** The world in which the rest of a route starts once the verifier has
    accepted [token]. *)
Definition verified_world (token : string) (s : db) (clk : nat -> Z) : world :=
  add_log ENext (add_log (EVerifyIdToken token) (new_world s clk)).

Definition forbidden_access : body := msg "message" "Unauthorized access!".

(** The filter GET /payments builds from the email of the query string. *)
Definition payments_query (email : option string) : filter :=
  if truthy_str email then FEq "email" (VStr (default "" email)) else FAll.

Definition mismatch_request : request :=
  mkRequest (Some "Bearer alice-token") "" (Some "bob@example.com") ∅ None.

(** A store that holds one payment record of the email [mismatch_request]
    asks for. *)
Definition bob_payment : doc :=
  list_to_map
    [("_id", oid_of "64b7f0c2a1b2c3d4e5f60009");
     ("parcelId", VStr sample_parcel_id);
     ("email", VStr "bob@example.com");
     ("amount", VNum 500);
     ("paid_at", VDate 0)].

Definition bob_paid_db : db :=
  mkDb [sample_user] [sample_rider] [sample_parcel] [bob_payment] [].

Definition accept_request (id : string) : request :=
  sample_request id None
    (list_to_map [("status", VStr "accepted");
                  ("email", VStr "alice@example.com")]).

(** The [_id] a body brings, if any, is not the [_id] of a stored
    document. *)
Definition id_free (b : doc) (l : list doc) : Prop :=
  match b !! "_id" with
  | None | Some VNull => True
  | Some v => id_taken v l = false
  end.

Definition user_exists : body :=
  BObj (list_to_map [("message", VStr "User already exists!");
                     ("inserted", VBool false)]).

Definition user_created (id : value) : body :=
  BObj (list_to_map [("message", VStr "User created");
                     ("inserted", VBool true);
                     ("insertedId", id)]).

Definition new_user_request : request :=
  sample_request "" None
    (list_to_map [("email", VStr "bob@example.com"); ("role", VStr "user")]).

Definition known_user_request : request :=
  sample_request "" None
    (list_to_map [("email", VStr "alice@example.com"); ("role", VStr "user")]).

(** A store whose one user came with an [_id] of its own: what a first
    POST /users with such a body leaves in an empty database. *)
Definition clash_db : db :=
  store (serve (post_users
                  (sample_request "" None
                     (list_to_map [("_id", VStr "u1");
                                   ("email", VStr "alice@example.com")])))
           (mkDb [] [] [] [] []) sample_clock).

Definition clash_request : request :=
  sample_request "" None
    (list_to_map [("_id", VStr "u1"); ("email", VStr "bob@example.com")]).

Definition role_updated (r : string) : body :=
  BObj (list_to_map [("message", VStr ("User role updated to " +:+ r));
                     ("modifiedCount", VNum 1)]).

Definition role_request (id : string) (role : string) : request :=
  sample_request id None {[ "role" := VStr role ]}.

Definition eleven_users : list doc :=
  (fun k => list_to_map [("_id", VOid (N.of_nat k));
                         ("email", VStr "Alice@Example.com")])
    <$> seq 1 11.

Definition search_request : request :=
  sample_request "" (Some "alice") ∅.


(** * The rest of the server *)

(** ** The remaining routes of [index.js] *)

(** The JSON of an [InsertOneResult]. *)
Definition insert_result_doc (insertedId : value) : doc :=
  list_to_map [("acknowledged", VBool true); ("insertedId", insertedId)].

(** The filter GET /parcels builds from the email of the query string. *)
Definition parcels_query (email : option string) : filter :=
  if truthy_str email then FEq "created_by" (VStr (default "" email)) else FAll.

(** The tracking log POST /tracking inserts (index.js 411-418);
    [updated_by] defaults to the empty string when it is undefined. *)
Definition tracking_log (tracking_id : option value) (parcel_id : N)
    (status message : option value) (time : Z) (updated_by : option value)
    : doc :=
  list_to_map
    [("tracking_id", bson tracking_id);
     ("parcel_id", VOid parcel_id);
     ("status", bson status);
     ("message", bson message);
     ("time", VDate time);
     ("updated_by", default (VStr "") updated_by)].

Definition tracking_missing : body :=
  BObj (list_to_map
    [("success", VBool false);
     ("error",
      VStr "Missing required fields: tracking_id, parcel_id, status, message")]).

Definition tracking_added (insertedId : value) : body :=
  BObj (list_to_map
    [("success", VBool true);
     ("insertedId", insertedId);
     ("message", VStr "Tracking log added successfully")]).

Definition tracking_failed : body :=
  BObj (list_to_map
    [("success", VBool false); ("error", VStr "Internal server error")]).

(** GET /riders/pending (index.js 253-265) *)
Definition get_riders_pending (req : request) : M unit :=
  try_catch
    (pendingRiders ← find_toArray Riders (FEq "status" (VStr "pending"))
                       (Some "created_at") None;
     res_json (BArr pendingRiders))
    (fun err =>
       console_error;;
       res_send 500 (msg "message" "Server error")).

(** GET /riders/active (index.js 268-280) *)
Definition get_riders_active (req : request) : M unit :=
  try_catch
    (activeRiders ← find_toArray Riders (FEq "status" (VStr "accepted"))
                      (Some "created_at") None;
     res_json (BArr activeRiders))
    (fun err =>
       console_error;;
       res_send 500 (msg "message" "Server error")).

(** POST /riders (index.js 283-292). The catch block binds [error] and
    names [err]. *)
Definition post_riders (req : request) : M unit :=
  try_catch
    (let newRider := req_body req in
     insertedId ← insertOne Riders newRider;
     res_send 201 (BObj {[ "insertedId" := insertedId ]}))
    (fun error =>
       console_error_err;;
       res_send 500 (msg "message" "Server error")).

(** GET /parcels, the handler (index.js 45-58 and 316-329). *)
Definition get_parcels (req : request) : M unit :=
  try_catch
    (let email := query_email req in
     let query := parcels_query email in
     result ← find_toArray Parcels query (Some "creation_date") None;
     res_json (BArr result))
    (fun err =>
       console_error;;
       res_send 500 (msg "error" "Failed to fetch parcels")).

(** POST /parcels (index.js 61-69 and 355-363) *)
Definition post_parcels (req : request) : M unit :=
  let parcel := req_body req in
  try_catch
    (insertedId ← insertOne Parcels parcel;
     res_json (BObj (insert_result_doc insertedId)))
    (fun err =>
       res_send 500 (msg "error" "❌ Failed to insert parcel")).

(** POST /tracking (index.js 391-435) *)
Definition post_tracking (req : request) : M unit :=
  try_catch
    (let tracking_id := req_body req !! "tracking_id" in
     let parcel_id := req_body req !! "parcel_id" in
     let status := req_body req !! "status" in
     let message := req_body req !! "message" in
     let updated_by := req_body req !! "updated_by" in
     if negb (truthy tracking_id) || negb (truthy parcel_id)
        || negb (truthy status) || negb (truthy message)
     then res_send 400 tracking_missing
     else
       oid ← ObjectId_new parcel_id;
       time ← Date_new;
       insertedId ← insertOne Tracking
                      (tracking_log tracking_id oid status message time
                         updated_by);
       res_send 201 (tracking_added insertedId))
    (fun error =>
       console_error;;
       res_send 500 tracking_failed).

(** ** Routes of the earlier versions of [index.js] *)

(** GET /parcels of the first version (part_000 183-190): every parcel, in
    natural order. *)
Definition get_parcels_all (req : request) : M unit :=
  try_catch
    (parcels ← find_toArray Parcels FAll None None;
     res_json (BArr parcels))
    (fun err =>
       res_send 500 (msg "error" "❌ Failed to fetch parcels")).

(** GET /parcels/user of the first version (part_000 193-203): the email
    goes into the filter as it is, defined or not. *)
Definition get_parcels_user (req : request) : M unit :=
  let email := query_email req in
  try_catch
    (result ← find_toArray Parcels
                (FEq "created_by" (bson (VStr <$> email))) None None;
     res_json (BArr result))
    (fun err =>
       res_send 500 (msg "error" "❌ Failed to fetch user parcels")).

(** GET /payments before the token verifier was added (part_001
    124-137). *)
Definition get_payments_open (req : request) : M unit :=
  try_catch
    (let userEmail := query_email req in
     let query := payments_query userEmail in
     payments ← find_toArray Payments query (Some "paid_at") None;
     res_json (BArr payments))
    (fun error =>
       console_error;;
       res_send 500 (msg "message" "Failed to get payments")).

Section Routes.

(** The identity provider and the regular-expression engine, as for the
    handlers above. *)
Variable verifyIdToken : string -> option doc.
Variable RegExp_i : string -> option regexp.

(** [stripe.paymentIntents.create] for an amount: the client secret of the
    intent, or the error of the provider. *)
Variable paymentIntents_create : option value -> outcome value.

Definition stripe_paymentIntents_create (amount : option value) : M value :=
  fun w => (paymentIntents_create amount, w).

(** POST /create-payment-intent (index.js 501-515) *)
Definition post_create_payment_intent (req : request) : M unit :=
  try_catch
    (let amountInCents := req_body req !! "amountInCents" in
     client_secret ← stripe_paymentIntents_create amountInCents;
     res_json (BObj {[ "clientSecret" := client_secret ]}))
    (fun error => res_send 500 (msg "error" (err_message error))).

(** GET /parcels behind the token verifier (index.js 316). *)
Definition route_get_parcels (req : request) : M unit :=
  verifyFBToken verifyIdToken req get_parcels.

(** The routing table of [index.js] (157-515), the test route apart. *)
Inductive route : Type :=
  | GET_users_search
  | PATCH_users_role
  | POST_users
  | GET_riders_pending
  | GET_riders_active
  | POST_riders
  | PATCH_riders
  | GET_parcels
  | GET_parcel
  | POST_parcels
  | DELETE_parcel
  | POST_tracking
  | GET_payments
  | POST_payments
  | POST_create_payment_intent.

Definition handler (r : route) (req : request) : M unit :=
  match r with
  | GET_users_search => get_users_search RegExp_i req
  | PATCH_users_role => patch_users_role req
  | POST_users => post_users req
  | GET_riders_pending => get_riders_pending req
  | GET_riders_active => get_riders_active req
  | POST_riders => post_riders req
  | PATCH_riders => patch_riders req
  | GET_parcels => route_get_parcels req
  | GET_parcel => get_parcel req
  | POST_parcels => post_parcels req
  | DELETE_parcel => delete_parcel req
  | POST_tracking => post_tracking req
  | GET_payments => route_get_payments verifyIdToken req
  | POST_payments => post_payments req
  | POST_create_payment_intent => post_create_payment_intent req
  end.

End Routes.

Definition is_get (r : route) : bool :=
  match r with
  | GET_users_search | GET_riders_pending | GET_riders_active
  | GET_parcels | GET_parcel | GET_payments => true
  | _ => false
  end.

(** ** What the routes do to the store and to the response *)

(** [m] relates the store it starts in to the store it leaves by [R],
    whether it returns or throws. *)
Definition keeps (R : db -> db -> Prop) {A : Type} (m : M A) : Prop :=
  forall w, R (store w) (store (snd (m w))).

(** [m] leaves the store alone. *)
Definition pure_step {A : Type} (m : M A) : Prop :=
  forall w, store (snd (m w)) = store w.

(** [m] never takes back a response. *)
Definition mono {A : Type} (m : M A) : Prop :=
  forall w, is_Some (sent w) -> is_Some (sent (snd (m w))).

(** [m] has sent a response by the time it returns. *)
Definition answers_on_return {A : Type} (m : M A) : Prop :=
  forall w a w', m w = (Ret a, w') -> is_Some (sent w').

(** [m] has sent a response when it ends, however it ends. *)
Definition answers {A : Type} (m : M A) : Prop :=
  forall w, is_Some (sent (snd (m w))).

(** The collections a route writes to, read off its handler. *)
Definition touches (r : route) (c : coll) : bool :=
  match r, c with
  | PATCH_users_role, Users => true
  | POST_users, Users => true
  | POST_riders, Riders => true
  | PATCH_riders, Riders => true
  | PATCH_riders, Users => true
  | POST_parcels, Parcels => true
  | DELETE_parcel, Parcels => true
  | POST_tracking, Tracking => true
  | POST_payments, Parcels => true
  | POST_payments, Payments => true
  | _, _ => false
  end.

(** The [_id]s of a collection; a collection is well keyed when every
    document has an [_id] and no two documents share one. *)
Definition doc_ids (l : list doc) : list (option value) :=
  (fun d : doc => d !! "_id") <$> l.

Definition well_keyed (l : list doc) : Prop :=
  NoDup (doc_ids l) /\ Forall (fun d : doc => is_Some (d !! "_id")) l.

Definition db_well_keyed (s : db) : Prop :=
  forall c, well_keyed (get_coll c s).

(** No stored payment record and no stored tracking log is changed or
    removed. *)
Definition append_only (s s' : db) : Prop :=
  payments s `prefix_of` payments s' /\ tracking s `prefix_of` tracking s'.

(** ** Responses, requests and relations the route properties speak of *)

(** Collection [c] is the same in both stores. *)
Definition same_coll (c : coll) (s s' : db) : Prop :=
  get_coll c s' = get_coll c s.

(** Well-keyed collections stay well keyed. *)
Definition keys_kept (s s' : db) : Prop :=
  db_well_keyed s -> db_well_keyed s'.


(** DELETE /parcels/:id on success (index.js 380-383): one document is
    deleted. *)
Definition parcel_deleted : body :=
  BObj (list_to_map [("message", VStr "Parcel deleted successfully.");
                     ("deletedCount", VNum 1)]).

(** The listing a handler sends: [recs] is the list of the documents of
    [l] that satisfy [f], latest first by [k]. *)
Definition listing (f : filter) (k : string) (l recs : list doc) : Prop :=
  recs ≡ₚ List.filter (matches f) l /\
  Sorted (desc_by k) recs /\
  (forall d, d ∈ recs <-> d ∈ l /\ matches f d = true).

(** A GET /payments for the payments of the token's own email. *)
Definition own_request : request :=
  mkRequest (Some "Bearer alice-token") "" (Some "alice@example.com") ∅ None.

(** An identity provider whose token carries no email claim (an anonymous
    or phone sign-in), and a request with that token and no email. *)
Definition anonymous_verifyIdToken (token : string) : option doc :=
  if String.eqb token "anonymous-token" then Some {[ "uid" := VStr "u42" ]}
  else None.

Definition anonymous_request : request :=
  mkRequest (Some "Bearer anonymous-token") "" None ∅ None.

(** The body brings an [_id] that a stored document already has. *)
Definition id_clash (b : doc) (l : list doc) : Prop :=
  exists v, b !! "_id" = Some v /\ v <> VNull /\ id_taken v l = true.

(** POST /riders on success (index.js 287). *)
Definition rider_created (id : value) : body := BObj {[ "insertedId" := id ]}.

(** Sample bodies of the inserting routes. *)
Definition rider_application : request :=
  sample_request "" None
    (list_to_map [("email", VStr "bob@example.com");
                  ("status", VStr "pending")]).

(** POST /parcels when the insert fails (index.js 361). *)
Definition parcel_insert_failed : body :=
  msg "error" "❌ Failed to insert parcel".

Definition parcel_booking : request :=
  sample_request "" None
    (list_to_map [("created_by", VStr "bob@example.com");
                  ("payment_status", VStr "unpaid")]).


(** The parcels that have no creator on record. *)
Definition no_creator (d : doc) : bool :=
  match d !! "created_by" with
  | None | Some VNull => true
  | Some _ => false
  end.

(** POST /payments on success (index.js 490-493); [already_paid] below is
    its answer for a parcel that is missing or already paid (index.js
    472-476). *)
Definition payment_recorded (id : value) : body :=
  BObj (list_to_map
    [("message", VStr "Payment recorded and parcel marked as recorded!");
     ("insertedId", id)]).

(** The values [new ObjectId] refuses. *)
Definition ObjectId_refuses (x : option value) : bool :=
  match x with
  | Some (VStr id) => negb (ObjectId_isValid id)
  | Some (VBool _) | Some (VDate _) => true
  | _ => false
  end.

Definition already_paid : body :=
  msg "message" "Parcel not found or already paid!".

(** A payment provider that always grants the intent, and the routing
    table over the sample collaborators. *)
Definition sample_paymentIntents_create (amount : option value)
    : outcome value :=
  Ret (VStr "pi_123_secret_456").

Definition sample_handler : route -> request -> M unit :=
  handler sample_verifyIdToken sample_RegExp_i sample_paymentIntents_create.

(** * Properties *)

(** ** The platform model on examples *)

Example toISOString_epoch : toISOString 0 = "1970-01-01T00:00:00.000Z".
Proof. reflexivity. Qed.

Example toISOString_2025 :
  toISOString 1751328000123 = "2025-07-01T00:00:00.123Z".
Proof. vm_compute. reflexivity. Qed.

Example toISOString_leap :
  toISOString 1709251199999 = "2024-02-29T23:59:59.999Z".
Proof. vm_compute. reflexivity. Qed.

Example ObjectId_parse_ok :
  ObjectId_parse "0000000000000000000000ff" = Some 255%N.
Proof. reflexivity. Qed.

Example ObjectId_parse_short : ObjectId_parse "abc" = None.
Proof. reflexivity. Qed.

(** ** Documents and collections *)

Lemma set_field_insert (k : string) (v : value) (d : doc) :
  ({[ k := v ]} ∪ d : doc) = <[k := v]> d.
Proof. symmetry. apply insert_union_singleton_l. Qed.

(** A [$set] of one field leaves a document as it is exactly when the
    field already has that value. *)
Lemma set_field_same_iff (k : string) (v : value) (d : doc) :
  ({[ k := v ]} ∪ d : doc) = d <-> d !! k = Some v.
Proof.
  rewrite set_field_insert. split.
  - intros Heq. rewrite <- Heq. apply lookup_insert_eq.
  - apply insert_id.
Qed.

Lemma find_first_Some (f : filter) (l : list doc) (i : nat) (d : doc) :
  find_first f l = Some (i, d) ->
  l !! i = Some d /\ matches f d = true.
Proof.
  unfold find_first. intros H. apply list_find_Some in H. tauto.
Qed.

Lemma coll_findOne_Some (f : filter) (l : list doc) (d : doc) :
  coll_findOne f l = Some d <-> exists i, find_first f l = Some (i, d).
Proof.
  unfold coll_findOne. split.
  - destruct (find_first f l) as [[i d']|]; simpl; [|discriminate].
    intros [= ->]. eauto.
  - intros [i ->]. reflexivity.
Qed.

Lemma coll_findOne_None (f : filter) (l : list doc) :
  coll_findOne f l = None <-> find_first f l = None.
Proof.
  unfold coll_findOne. destruct (find_first f l) as [[i d]|]; simpl;
    split; congruence.
Qed.

Lemma max_oid_bound (l : list doc) (d : doc) (o : N) :
  d ∈ l -> d !! "_id" = Some (VOid o) -> (o <= max_oid l)%N.
Proof.
  induction 1 as [d l|d d' l Hin IH]; intros Hid; simpl.
  - rewrite Hid. lia.
  - specialize (IH Hid). destruct (d' !! "_id") as [[]|]; lia.
Qed.

Lemma max_oid_db_bound (c : coll) (s : db) :
  (max_oid (get_coll c s) <= max_oid_db s)%N.
Proof. unfold max_oid_db. destruct c; simpl; lia. Qed.

(** A generated ObjectId is the [_id] of no stored document. *)
Lemma generated_id_unused (c : coll) (s : db) (m : N) (d : doc) :
  d ∈ get_coll c s ->
  d !! "_id" <> Some (VOid (N.succ (N.max m (max_oid_db s)))).
Proof.
  intros Hin Hid. pose proof (max_oid_bound _ _ _ Hin Hid) as Hb.
  pose proof (max_oid_db_bound c s). lia.
Qed.

(** Sorting returns the matching documents, in some order. *)
Lemma coll_find_all_Permutation (f : filter) (k : string) (l : list doc) :
  coll_find f (Some k) None l ≡ₚ List.filter (matches f) l.
Proof. unfold coll_find. apply merge_sort_Permutation. Qed.

Lemma bson_leb_total (a b : option value) :
  bson_leb a b = true \/ bson_leb b a = true.
Proof.
  unfold bson_leb.
  destruct (Nat.ltb_spec (bson_rank a) (bson_rank b)) as [Hab|Hab]; [auto|].
  destruct (Nat.ltb_spec (bson_rank b) (bson_rank a)) as [Hba|Hba]; [auto|].
  destruct a as [[|x|x|x|x|x]|], b as [[|y|y|y|y|y]|];
    simpl in Hab, Hba; try lia; auto.
  all: first [ apply String.leb_total
             | rewrite !Z.leb_le; lia
             | rewrite !N.leb_le; lia
             | by destruct x, y; auto ].
Qed.

#[global] Instance desc_by_total (k : string) : Total (desc_by k).
Proof. intros d1 d2. unfold desc_by. apply bson_leb_total. Qed.

(** A sorted [find] returns its documents in non-increasing order of the
    sort key. *)
Lemma coll_find_all_Sorted (f : filter) (k : string) (l : list doc) :
  Sorted (desc_by k) (coll_find f (Some k) None l).
Proof. unfold coll_find. apply Sorted_merge_sort. apply _. Qed.

Lemma coll_find_limit_length (f : filter) (sort : option string) (n : nat)
    (l : list doc) :
  length (coll_find f sort (Some n) l) <= n.
Proof. unfold coll_find. rewrite length_take. lia. Qed.

(** ** Symbolic execution of handlers *)

Ltac unfold_monad :=
  unfold res_send, console_error, console_error_err, mbind, M_bind, mret,
    M_ret, try_catch, detach, throw, emit, res_status, res_json, Date_new,
    findOne, find_toArray, updateOne, deleteOne, insertOne,
    ObjectId_generate.

Ltac world_simpl :=
  cbn [store statusCode sent rejected log clock reads minted set_store
       set_statusCode set_sent set_rejected add_log tick set_minted
       new_world get_coll set_coll users riders parcels payments tracking
       fst snd matchedCount modifiedCount negb orb andb Nat.eqb app].

Lemma paymentDoc_no_id (p e a m t : option value) (t1 t2 : Z) :
  paymentDoc p e a m t t1 t2 !! "_id" = None.
Proof. reflexivity. Qed.

Lemma paymentDoc_parcelId (p e a m t : option value) (t1 t2 : Z) :
  paymentDoc p e a m t t1 t2 !! "parcelId" = Some (bson p).
Proof. reflexivity. Qed.

Lemma paymentDoc_paid_at (p e a m t : option value) (t1 t2 : Z) :
  paymentDoc p e a m t t1 t2 !! "paid_at" = Some (VDate t2).
Proof. reflexivity. Qed.

Lemma paymentDoc_paid_at_string (p e a m t : option value) (t1 t2 : Z) :
  paymentDoc p e a m t t1 t2 !! "paid_at_string"
  = Some (VStr (toISOString t1)).
Proof. reflexivity. Qed.

Lemma names_oid_truthy (x : option value) (o : N) :
  names_oid x = Some o -> truthy x = true.
Proof.
  destruct x as [[| | |s| |]|]; try discriminate; [|reflexivity].
  destruct s; [discriminate|reflexivity].
Qed.

Lemma names_oid_new (x : option value) (o : N) :
  names_oid x = Some o -> ObjectId_new x = mret o.
Proof.
  destruct x as [[| | |s| |]|]; try discriminate; simpl.
  - intros ->. reflexivity.
  - intros [= ->]. reflexivity.
Qed.

Lemma refers_to_Some (x : option value) (l : list doc) (p : doc) :
  refers_to x l = Some p ->
  exists o i, names_oid x = Some o /\
              find_first (FEq "_id" (VOid o)) l = Some (i, p).
Proof.
  unfold refers_to. destruct (names_oid x) as [o|]; [|discriminate].
  intros [i Hi]%coll_findOne_Some. eauto.
Qed.

(** ** POST /payments *)

(** C1. A POST /payments whose parcelId names a stored parcel with
    payment_status "unpaid", and whose parcelId, email and amount pass the
    handler's required-field check, sets that parcel's payment_status to
    "paid" (nothing else in the parcels changes), appends exactly one
    payment record, whose parcelId is the request's, whose paid_at is the
    server's clock and whose paid_at_string is the ISO string of the
    server's clock, under an identifier no stored payment had, and the
    response is 201 with that identifier as insertedId. *)
Theorem post_payments_unpaid_parcel :
  forall (req : request) (s : db) (clk : nat -> Z) (p : doc),
    refers_to (req_body req !! "parcelId") (parcels s) = Some p ->
    p !! "payment_status" = Some (VStr "unpaid") ->
    truthy (req_body req !! "email") = true ->
    truthy (req_body req !! "amount") = true ->
    let w := serve (post_payments req) s clk in
    exists (i : nat) (payId : value) (pay : doc),
      parcels s !! i = Some p /\
      parcels (store w) = <[i := <["payment_status" := VStr "paid"]> p]> (parcels s) /\
      payments (store w) = payments s ++ [pay] /\
      pay !! "_id" = Some payId /\
      (forall d, d ∈ payments s -> d !! "_id" <> Some payId) /\
      pay !! "parcelId" = req_body req !! "parcelId" /\
      pay !! "paid_at" = Some (VDate (clk 1)) /\
      pay !! "paid_at_string" = Some (VStr (toISOString (clk 0))) /\
      sent w = Some (201, BObj (list_to_map
                 [("message",
                   VStr "Payment recorded and parcel marked as recorded!");
                  ("insertedId", payId)])) /\
      rejected w = None /\
      users (store w) = users s /\ riders (store w) = riders s /\
      tracking (store w) = tracking s.
Proof.
  intros req s clk p Hrefers Hst Hem Ham w.
  destruct (refers_to_Some _ _ _ Hrefers) as (oid & i & Hoid & Hfind).
  destruct (find_first_Some _ _ _ _ Hfind) as [Hi _].
  subst w. unfold serve, post_payments.
  rewrite Hem, Ham, (names_oid_truthy _ _ Hoid), (names_oid_new _ _ Hoid).
  unfold_monad. unfold coll_updateOne. world_simpl.
  rewrite Hfind.
  rewrite decide_False
    by (rewrite set_field_same_iff, Hst; congruence).
  world_simpl. unfold coll_insertOne. rewrite paymentDoc_no_id. world_simpl.
  eexists i, _, _. split; [exact Hi|].
  split; [by rewrite set_field_insert|].
  split; [reflexivity|].
  split; [apply lookup_insert_eq|].
  split.
  { intros d Hd. apply (generated_id_unused Payments _ 0 d). exact Hd. }
  rewrite !lookup_insert_ne by done.
  rewrite paymentDoc_parcelId, paymentDoc_paid_at, paymentDoc_paid_at_string.
  split.
  { destruct (req_body req !! "parcelId") as [v|]; [reflexivity|discriminate]. }
  repeat split; reflexivity.
Qed.

Lemma post_payments_unpaid_parcel_witness :
  status (serve (post_payments (sample_payment sample_parcel_id))
            sample_db sample_clock) = Some 201.
Proof.
  destruct (post_payments_unpaid_parcel (sample_payment sample_parcel_id)
              sample_db sample_clock sample_parcel)
    as (i & payId & pay & H); [vm_compute; reflexivity..|].
  unfold status. destruct H as (_ & _ & _ & _ & _ & _ & _ & _ & -> & _).
  reflexivity.
Defined.

Lemma find_first_generated (c : coll) (s : db) (m : N) :
  find_first (FEq "_id" (VOid (N.succ (N.max m (max_oid_db s)))))
    (get_coll c s) = None.
Proof.
  apply list_find_None, Forall_forall. intros d Hd Hm.
  simpl in Hm. apply bool_decide_eq_true in Hm.
  exact (generated_id_unused c s m d Hd Hm).
Qed.

(** What POST /payments does once the ObjectId of the filter is known and
    selects no parcel. *)
Lemma post_payments_miss (req : request) (s : db) (clk : nat -> Z) (oid : N)
    (w0 : world) :
  truthy (req_body req !! "parcelId") = true ->
  truthy (req_body req !! "email") = true ->
  truthy (req_body req !! "amount") = true ->
  ObjectId_new (req_body req !! "parcelId") (new_world s clk)
    = (Ret oid, w0) ->
  store w0 = s -> sent w0 = None -> log w0 = [] -> rejected w0 = None ->
  find_first (FEq "_id" (VOid oid)) (parcels s) = None ->
  let w := serve (post_payments req) s clk in
  sent w = Some (404, msg "message" "Parcel not found or already paid!") /\
  store w = s /\
  log w = [EDb Parcels CUpdateOne;
           ERes 404 (msg "message" "Parcel not found or already paid!")] /\
  rejected w = None.
Proof.
  intros Hp He Ha Hnew Hs Hsent Hlog Hrej Hfind w. subst w.
  unfold serve, post_payments. rewrite Hp, He, Ha.
  unfold_monad. cbn [negb orb]. rewrite Hnew. unfold coll_updateOne. world_simpl.
  rewrite Hs. world_simpl. rewrite Hfind. world_simpl.
  rewrite Hsent. world_simpl. rewrite Hlog, Hrej.
  repeat split; try reflexivity. by destruct s.
Qed.

(** C2, as amended. A POST /payments whose parcelId, email and amount pass
    the required-field check and whose parcelId refers to no stored parcel
    inserts no payment record: the payments collection is unchanged and no
    insert is issued. When the parcelId spells an ObjectId (24 hex digits)
    the response is 404 and the whole store is unchanged. *)
Theorem post_payments_unknown_parcel :
  forall (req : request) (s : db) (clk : nat -> Z),
    refers_to (req_body req !! "parcelId") (parcels s) = None ->
    truthy (req_body req !! "parcelId") = true ->
    truthy (req_body req !! "email") = true ->
    truthy (req_body req !! "amount") = true ->
    let w := serve (post_payments req) s clk in
    payments (store w) = payments s /\
    (EDb Payments CInsertOne ∉ log w) /\
    (forall oid, names_oid (req_body req !! "parcelId") = Some oid ->
       sent w = Some (404, msg "message" "Parcel not found or already paid!")
       /\ store w = s).
Proof.
  intros req s clk Hrefers Hp He Ha w.
  assert (Hmiss : forall oid w0,
            ObjectId_new (req_body req !! "parcelId") (new_world s clk)
              = (Ret oid, w0) ->
            store w0 = s -> sent w0 = None -> log w0 = [] ->
            rejected w0 = None ->
            find_first (FEq "_id" (VOid oid)) (parcels s) = None ->
            payments (store w) = payments s /\
            (EDb Payments CInsertOne ∉ log w) /\
            sent w = Some (404, msg "message" "Parcel not found or already paid!")
            /\ store w = s).
  { intros oid w0 Hnew Hs Hsent Hlog Hrej Hfind.
    destruct (post_payments_miss req s clk oid w0 Hp He Ha Hnew Hs Hsent Hlog
                Hrej Hfind) as (H1 & H2 & H3 & _).
    fold w in H1, H2, H3. rewrite H2, H3. split; [reflexivity|].
    split; [|by split].
    rewrite !not_elem_of_cons. repeat split; try discriminate.
    apply not_elem_of_nil. }
  assert (Hthrow : forall e,
            ObjectId_new (req_body req !! "parcelId") (new_world s clk)
              = (Throw e, new_world s clk) ->
            payments (store w) = payments s /\
            EDb Payments CInsertOne ∉ log w).
  { intros e Hnew. subst w. unfold serve, post_payments.
    rewrite Hp, He, Ha. unfold_monad. cbn [negb orb]. rewrite Hnew.
    world_simpl.
    split; [reflexivity|]. apply not_elem_of_nil. }
  unfold refers_to in Hrefers.
  destruct (req_body req !! "parcelId") as [[|b|n|pid|o|t]|] eqn:Hpid;
    simpl in Hp; try discriminate.
  - destruct (Hthrow BSONError_type) as [H1 H2]; [reflexivity|].
    split; [exact H1|]. split; [exact H2|]. intros oid [=].
  - edestruct Hmiss as (H1 & H2 & _); [reflexivity..| |].
    { apply (find_first_generated Parcels). }
    split; [exact H1|]. split; [exact H2|]. intros oid [=].
  - simpl in Hrefers. destruct (ObjectId_parse pid) as [oid|] eqn:Hparse.
    + apply coll_findOne_None in Hrefers.
      edestruct Hmiss as (H1 & H2 & H3 & H4);
        [simpl; rewrite Hparse; reflexivity|reflexivity..|exact Hrefers|].
      split; [exact H1|]. split; [exact H2|]. intros oid' _. by split.
    + destruct (Hthrow BSONError_input) as [H1 H2];
        [simpl; rewrite Hparse; reflexivity|].
      split; [exact H1|]. split; [exact H2|].
      intros oid Hn. simpl in Hn. congruence.
  - simpl in Hrefers. apply coll_findOne_None in Hrefers.
    edestruct Hmiss as (H1 & H2 & H3 & H4);
      [reflexivity..|exact Hrefers|].
    split; [exact H1|]. split; [exact H2|]. intros oid' _. by split.
  - destruct (Hthrow BSONError_type) as [H1 H2]; [reflexivity|].
    split; [exact H1|]. split; [exact H2|]. intros oid [=].
Qed.

Lemma post_payments_unknown_parcel_witness :
  let w := serve (post_payments (sample_payment unknown_parcel_id))
             sample_db sample_clock in
  payments (store w) = [] /\ status w = Some 404.
Proof.
  destruct (post_payments_unknown_parcel (sample_payment unknown_parcel_id)
              sample_db sample_clock)
    as (Hpay & _ & H404); [vm_compute; reflexivity..|].
  destruct (H404 (default 0%N (ObjectId_parse unknown_parcel_id)))
    as [Hsent _]; [vm_compute; reflexivity|].
  cbv zeta. split; [exact Hpay|]. unfold status. rewrite Hsent. reflexivity.
Defined.

(** C2, as stated, fails: a parcelId that is present but is not an
    identifier refers to no parcel, yet the handler answers no 404. The
    ObjectId constructor throws, the catch block throws in turn (it names
    [err]), and the handler ends without having sent a response. *)
Lemma post_payments_malformed_parcelId_no_404 :
  let req := sample_payment "not-a-parcel-id" in
  let w := serve (post_payments req) sample_db sample_clock in
  refers_to (req_body req !! "parcelId") (parcels sample_db) = None /\
  truthy (req_body req !! "parcelId") = true /\
  truthy (req_body req !! "email") = true /\
  truthy (req_body req !! "amount") = true /\
  status w <> Some 404 /\
  sent w = None /\
  rejected w = Some ReferenceError_err.
Proof. vm_compute. repeat split; congruence. Qed.

(** C3, as amended. A POST /payments naming a parcel whose payment_status
    is already "paid" is rejected: the update modifies nothing, the
    response is 404 "Parcel not found or already paid!", no payment record
    is inserted and the store is left as it was. *)
Theorem post_payments_already_paid :
  forall (req : request) (s : db) (clk : nat -> Z) (p : doc),
    refers_to (req_body req !! "parcelId") (parcels s) = Some p ->
    p !! "payment_status" = Some (VStr "paid") ->
    truthy (req_body req !! "email") = true ->
    truthy (req_body req !! "amount") = true ->
    let w := serve (post_payments req) s clk in
    sent w = Some (404, msg "message" "Parcel not found or already paid!") /\
    store w = s /\
    db_calls w = [EDb Parcels CUpdateOne].
Proof.
  intros req s clk p Hrefers Hst Hem Ham w.
  destruct (refers_to_Some _ _ _ Hrefers) as (oid & i & Hoid & Hfind).
  destruct (find_first_Some _ _ _ _ Hfind) as [Hi _].
  subst w. unfold serve, db_calls, post_payments.
  rewrite Hem, Ham, (names_oid_truthy _ _ Hoid), (names_oid_new _ _ Hoid).
  unfold_monad. unfold coll_updateOne. world_simpl.
  rewrite Hfind.
  rewrite decide_True by (by rewrite set_field_same_iff).
  world_simpl.
  assert (({[ "payment_status" := VStr "paid" ]} ∪ p : doc) = p) as ->
    by (by rewrite set_field_same_iff).
  rewrite list_insert_id by exact Hi.
  repeat split; try reflexivity. by destruct s.
Qed.

Lemma post_payments_already_paid_witness :
  status (serve (post_payments (sample_payment sample_parcel_id))
            paid_db sample_clock) = Some 404.
Proof.
  destruct (post_payments_already_paid (sample_payment sample_parcel_id)
              paid_db sample_clock
              (<["payment_status" := VStr "paid"]> sample_parcel))
    as (Hsent & _); [vm_compute; reflexivity..|].
  unfold status. rewrite Hsent. reflexivity.
Defined.

(** C3, as stated, fails: submitting the sample payment a second time, when
    the parcel is already "paid" and one payment record exists, inserts
    nothing and is answered 404. *)
Lemma second_payment_is_rejected :
  let req := sample_payment sample_parcel_id in
  let w := serve (post_payments req) paid_db sample_clock in
  (exists p, refers_to (req_body req !! "parcelId") (parcels paid_db) = Some p
             /\ p !! "payment_status" = Some (VStr "paid")) /\
  length (payments paid_db) = 1 /\
  payments (store w) = payments paid_db /\
  parcels (store w) = parcels paid_db /\
  status w = Some 404.
Proof.
  cbv zeta. split.
  - exists (<["payment_status" := VStr "paid"]> sample_parcel).
    vm_compute. split; reflexivity.
  - vm_compute. repeat split; reflexivity.
Qed.

(** ** The token verifier *)




Section Verifier.

Variable verifyIdToken : string -> option doc.
Variables (req : request) (s : db) (clk : nat -> Z).

Lemma bearer_guard :
  startsWith "Bearer " (authorization req) = true ->
  negb (truthy_str (authorization req))
  || negb (startsWith "Bearer " (authorization req)) = false.
Proof.
  intros Hpre. rewrite Hpre.
  destruct (authorization req) as [[|c h]|]; try discriminate. reflexivity.
Qed.

Lemma nonempty_truthy (t : string) : t <> "" -> truthy_str (Some t) = true.
Proof. destruct t; [congruence|reflexivity]. Qed.


(** A token the identity provider rejects: 403. *)
Lemma verifyFBToken_forbidden (next : request -> M unit) (t : string) :
  startsWith "Bearer " (authorization req) = true ->
  token_of (authorization req) = Some t -> t <> "" ->
  verifyIdToken t = None ->
  let w := serve (verifyFBToken verifyIdToken req next) s clk in
  sent w = Some (403, forbidden_token) /\
  log w = [EVerifyIdToken t; EConsoleError; ERes 403 forbidden_token] /\
  store w = s.
Proof.
  intros Hpre Ht Hne Hv. unfold serve, verifyFBToken.
  rewrite (bearer_guard Hpre). rewrite Ht, (nonempty_truthy t Hne).
  change (default "" (Some t)) with t.
  unfold_monad. unfold admin_verifyIdToken. cbn [negb].
  rewrite Hv. world_simpl. by repeat split.
Qed.

(** A token the identity provider accepts: the rest of the route runs,
    on the request that carries the claims. *)
Lemma verifyFBToken_accepts (next : request -> M unit) (t : string)
    (claims : doc) :
  startsWith "Bearer " (authorization req) = true ->
  token_of (authorization req) = Some t -> t <> "" ->
  verifyIdToken t = Some claims ->
  serve (verifyFBToken verifyIdToken req next) s clk
  = snd (detach (next (set_user claims req)) (verified_world t s clk)).
Proof.
  intros Hpre Ht Hne Hv. unfold serve, verifyFBToken.
  rewrite (bearer_guard Hpre). rewrite Ht, (nonempty_truthy t Hne).
  change (default "" (Some t)) with t.
  unfold mbind, M_bind, try_catch, emit, detach, admin_verifyIdToken.
  cbn [negb]. rewrite Hv. fold (verified_world t s clk).
  destruct (next (set_user claims req) (verified_world t s clk))
    as [[[]|e] w']; reflexivity.
Qed.

End Verifier.



(** ** GET /payments *)

(** C4, as amended. A GET /payments that passes the token verifier with a
    token whose email differs from the email of the query string is
    answered 403, and the handler does not stop there: after the 403 it
    queries the payments collection and calls [res.json] with the payment
    records the query selects, latest first. No record is sent: the
    response having gone out, Express refuses that second send, the
    handler's catch block then tries a third one and the handler ends with
    the error of the refused send. The response is the 403 and nothing
    else, and the store is unchanged. *)
Theorem get_payments_mismatch_continues :
  forall (verifyIdToken : string -> option doc) (req : request) (s : db)
         (clk : nat -> Z) (t : string) (claims : doc),
    startsWith "Bearer " (authorization req) = true ->
    token_of (authorization req) = Some t ->
    t <> "" ->
    verifyIdToken t = Some claims ->
    claims !! "email" <> (VStr <$> query_email req) ->
    let w := serve (route_get_payments verifyIdToken req) s clk in
    exists recs,
      recs ≡ₚ List.filter (matches (payments_query (query_email req)))
                (payments s) /\
      Sorted (desc_by "paid_at") recs /\
      sent w = Some (403, forbidden_access) /\
      log w = [EVerifyIdToken t; ENext;
               ERes 403 forbidden_access;
               EDb Payments CFind;
               ERes 403 (BArr recs);
               EConsoleError;
               ERes 500 (msg "message" "Failed to get payments")] /\
      records w = [] /\
      rejected w = Some ERR_HTTP_HEADERS_SENT /\
      store w = s.
Proof.
  intros verifyIdToken req s clk t claims Hpre Ht Hne Hv Hmis w.
  subst w. unfold route_get_payments.
  rewrite (verifyFBToken_accepts verifyIdToken req s clk get_payments t claims
             Hpre Ht Hne Hv).
  exists (coll_find (payments_query (query_email req)) (Some "paid_at") None
            (payments s)).
  split; [apply coll_find_all_Permutation|].
  split; [apply coll_find_all_Sorted|].
  unfold get_payments, verified_world.
  change (req_user (set_user claims req)) with (Some claims).
  change (query_email (set_user claims req)) with (query_email req).
  change (Some claims ≫= (fun u : doc => u !! "email"))
    with (claims !! "email").
  rewrite bool_decide_true by exact Hmis.
  fold (payments_query (query_email req)).
  unfold_monad. world_simpl.
  repeat split; reflexivity.
Qed.

Lemma get_payments_mismatch_continues_witness :
  let w := serve (route_get_payments sample_verifyIdToken mismatch_request)
             paid_db sample_clock in
  status w = Some 403 /\ EDb Payments CFind ∈ log w.
Proof.
  destruct (get_payments_mismatch_continues sample_verifyIdToken
              mismatch_request paid_db sample_clock "alice-token"
              {[ "email" := VStr "alice@example.com" ]})
    as (recs & _ & _ & Hsent & Hlog & _);
    [vm_compute; congruence..|].
  cbv zeta. unfold status. rewrite Hsent, Hlog. split; [reflexivity|].
  do 3 apply list_elem_of_further. apply list_elem_of_here.
Defined.

(** C4, as stated, fails: with a token of alice@example.com and a query
    for bob@example.com, on a store that holds a payment record of
    bob@example.com, the query selects that record, and the handler sends
    no record: the response is the 403, and the call of [res.json] with
    the record ends in the error of a response that was already sent. *)
Lemma get_payments_mismatch_sends_no_records :
  let w := serve (route_get_payments sample_verifyIdToken mismatch_request)
             bob_paid_db sample_clock in
  sample_verifyIdToken "alice-token" ≫= (fun u : doc => u !! "email")
    = Some (VStr "alice@example.com") /\
  query_email mismatch_request = Some "bob@example.com" /\
  coll_find (payments_query (query_email mismatch_request)) (Some "paid_at")
    None (payments bob_paid_db) = [bob_payment] /\
  sent w = Some (403, forbidden_access) /\
  records w = [] /\
  (forall code, sent w <> Some (code, BArr [bob_payment])) /\
  rejected w = Some ERR_HTTP_HEADERS_SENT.
Proof.
  cbv zeta. repeat split; try reflexivity.
  intros code. discriminate.
Qed.

(** ** PATCH /riders/:id *)

Lemma coll_updateOne_field (f : filter) (k : string) (v : value)
    (l : list doc) :
  fst (coll_updateOne f {[ k := v ]} l)
  = match find_first f l with
    | Some (i, d) => <[i := <[k := v]> d]> l
    | None => l
    end.
Proof.
  unfold coll_updateOne. destruct (find_first f l) as [[i d]|]; simpl;
    [by rewrite set_field_insert|reflexivity].
Qed.

Lemma updateOne_run (c : coll) (f : filter) (set : doc) (w : world) :
  updateOne c f set w
  = (Ret (snd (coll_updateOne f set (get_coll c (store w)))),
     set_store (set_coll c (fst (coll_updateOne f set (get_coll c (store w))))
                  (store w))
       (add_log (EDb c CUpdateOne) w)).
Proof.
  unfold updateOne. world_simpl.
  destruct (coll_updateOne f set (get_coll c (store w))). reflexivity.
Qed.

(** C6, as amended. A PATCH /riders/:id changes no user record unless the
    status of the body is "accepted". When the id is a well-formed
    identifier, the rider it selects (if any) gets the status of the body,
    whatever that status is; if the status is "accepted" the first user
    whose email is the email of the body gets the role "rider", and no
    other user record changes; the response is the update result. *)
Theorem patch_riders_well_formed :
  forall (req : request) (s : db) (clk : nat -> Z),
    let st := req_body req !! "status" in
    let email := req_body req !! "email" in
    let w := serve (patch_riders req) s clk in
    (st <> Some (VStr "accepted") -> users (store w) = users s) /\
    (forall oid,
       ObjectId_parse (param_id req) = Some oid ->
       riders (store w)
       = match find_first (FEq "_id" (VOid oid)) (riders s) with
         | Some (i, r) => <[i := <["status" := bson st]> r]> (riders s)
         | None => riders s
         end /\
       (st = Some (VStr "accepted") ->
        users (store w)
        = match find_first (FEq "email" (bson email)) (users s) with
          | Some (j, u) => <[j := <["role" := VStr "rider"]> u]> (users s)
          | None => users s
          end) /\
       status w = Some 200 /\
       rejected w = None /\
       parcels (store w) = parcels s /\
       payments (store w) = payments s /\
       tracking (store w) = tracking s).
Proof.
  intros req s clk st email w. split.
  - intros Hst. subst w. unfold serve, patch_riders.
    fold st. rewrite bool_decide_false by exact Hst.
    unfold ObjectId_new. destruct (ObjectId_parse (param_id req)) as [oid|].
    + unfold mbind, M_bind, mret, M_ret, detach, res_json.
      rewrite updateOne_run. world_simpl. reflexivity.
    + reflexivity.
  - intros oid Hparse. subst w. unfold serve, patch_riders.
    fold st. fold email. unfold ObjectId_new. rewrite Hparse.
    unfold mbind, M_bind, mret, M_ret, detach, res_json.
    rewrite updateOne_run. world_simpl. rewrite coll_updateOne_field.
    destruct (bool_decide (st = Some (VStr "accepted"))) eqn:Hacc.
    + rewrite updateOne_run. world_simpl. rewrite coll_updateOne_field.
      unfold status. world_simpl.
      repeat split; try reflexivity.
    + apply bool_decide_eq_false in Hacc.
      unfold status. world_simpl.
      repeat split; try reflexivity. intros Hst. contradiction.
Qed.

Lemma patch_riders_well_formed_witness :
  let w := serve (patch_riders (accept_request sample_rider_id))
             sample_db sample_clock in
  users (store w) = [<["role" := VStr "rider"]> sample_user] /\
  riders (store w) = [<["status" := VStr "accepted"]> sample_rider].
Proof.
  destruct (patch_riders_well_formed (accept_request sample_rider_id)
              sample_db sample_clock) as [_ H].
  destruct (H (default 0%N (ObjectId_parse sample_rider_id)))
    as (Hr & Hu & _); [vm_compute; reflexivity|].
  cbv zeta. rewrite Hr, Hu by reflexivity. split; reflexivity.
Defined.

(** C6, as stated, fails: with an id that is not an identifier and the
    status "accepted", the handler throws before it reaches the user
    update; the user with the supplied email keeps the role "user". *)
Lemma patch_riders_malformed_id_no_promotion :
  let req := accept_request "not-an-id" in
  let w := serve (patch_riders req) sample_db sample_clock in
  req_body req !! "status" = Some (VStr "accepted") /\
  coll_findOne (FEq "email" (bson (req_body req !! "email"))) (users sample_db)
    = Some sample_user /\
  coll_findOne (FEq "email" (bson (req_body req !! "email"))) (users (store w))
    = Some sample_user /\
  sample_user !! "role" = Some (VStr "user") /\
  sent w = None /\
  rejected w = Some BSONError_input.
Proof. vm_compute. repeat split; reflexivity. Qed.

(** ** POST /users *)

Lemma coll_insertOne_free (fresh : N) (b : doc) (l : list doc) :
  id_free b l ->
  exists id u,
    coll_insertOne fresh b l = Some (l ++ [u], id) /\
    u !! "_id" = Some id /\
    (forall k, k <> "_id" -> u !! k = b !! k).
Proof.
  unfold id_free, coll_insertOne. intros Hfree.
  destruct (b !! "_id") as [v|] eqn:Hid.
  - destruct v; try (rewrite Hfree; eauto);
      (eexists _, _; split; [reflexivity|]; split;
       [apply lookup_insert_eq|intros; by apply lookup_insert_ne]).
  - eexists _, _. split; [reflexivity|]. split; [apply lookup_insert_eq|].
    intros. by apply lookup_insert_ne.
Qed.

(** C7, as amended. POST /users is idempotent on email: when a stored user
    has the email of the body, nothing is inserted, the first such user
    gets a fresh last_log_in and the response is 200 with inserted:false.
    When no stored user has that email and the body brings no [_id] that
    a stored user already has, the body is inserted (under the [_id] it
    brings or a generated one) and the response is 201 with inserted:true
    and that [_id]. *)
Theorem post_users_upsert :
  forall (req : request) (s : db) (clk : nat -> Z),
    let email := bson (req_body req !! "email") in
    let w := serve (post_users req) s clk in
    (forall i u,
       find_first (FEq "email" email) (users s) = Some (i, u) ->
       users (store w)
       = <[i := <["last_log_in" := VStr (toISOString (clk 0))]> u]> (users s)
       /\ length (users (store w)) = length (users s)
       /\ sent w = Some (200, user_exists)) /\
    (find_first (FEq "email" email) (users s) = None ->
     id_free (req_body req) (users s) ->
     exists id u,
       users (store w) = users s ++ [u] /\
       u !! "_id" = Some id /\
       (forall k, k <> "_id" -> u !! k = req_body req !! k) /\
       sent w = Some (201, user_created id)).
Proof.
  intros req s clk email w. split.
  - intros i u Hfind. subst w. unfold serve, post_users. fold email.
    unfold_monad. unfold coll_findOne, coll_updateOne. world_simpl.
    rewrite Hfind. cbn [fmap option_fmap option_map snd]. world_simpl.
    rewrite Hfind. world_simpl. rewrite set_field_insert, length_insert.
    repeat split; reflexivity.
  - intros Hfind Hfree. subst w. unfold serve, post_users. fold email.
    unfold_monad. unfold coll_findOne. world_simpl.
    rewrite Hfind. cbn [fmap option_fmap option_map snd]. world_simpl.
    match goal with
    | |- context [coll_insertOne ?f _ _] =>
        destruct (coll_insertOne_free f _ _ Hfree) as (id & u & -> & Hid & Hk)
    end.
    world_simpl. exists id, u. repeat split; assumption || reflexivity.
Qed.

Lemma post_users_upsert_witness :
  status (serve (post_users known_user_request) sample_db sample_clock)
    = Some 200 /\
  status (serve (post_users new_user_request) sample_db sample_clock)
    = Some 201.
Proof.
  split.
  - destruct (post_users_upsert known_user_request sample_db sample_clock)
      as [H _].
    destruct (H 0 sample_user) as (_ & _ & Hsent); [vm_compute; reflexivity|].
    unfold status. rewrite Hsent. reflexivity.
  - destruct (post_users_upsert new_user_request sample_db sample_clock)
      as [_ H].
    destruct H as (id & u & _ & _ & _ & Hsent);
      [vm_compute; reflexivity|exact I|].
    unfold status. rewrite Hsent. reflexivity.
Defined.

(** C7, as stated, fails: a body with an email no stored user has, but
    with the [_id] of a stored user, is not inserted; the insert is
    refused (duplicate key) and the response is 500. *)
Lemma post_users_fresh_email_duplicate_id :
  let w := serve (post_users clash_request) clash_db sample_clock in
  coll_findOne (FEq "email" (bson (req_body clash_request !! "email")))
    (users clash_db) = None /\
  users (store w) = users clash_db /\
  status w = Some 500 /\
  status w <> Some 201.
Proof. vm_compute. repeat split; congruence. Qed.

(** ** PATCH /users/:id/role *)

Lemma includes_Some (xs : list string) (x : option value) :
  includes xs x = true -> exists r, x = Some (VStr r) /\ r ∈ xs.
Proof.
  destruct x as [[| | |r| |]|]; try discriminate. simpl.
  intros H%bool_decide_eq_true. eauto.
Qed.

(** C8, as amended. PATCH /users/:id/role with a role other than "admin"
    and "user" is answered 400 and makes no call on the store. With a
    valid role and a well-formed id, it is answered 404 exactly when the
    update modifies nothing, that is when no user has the id or the user
    that has it already has the role, and the store is then unchanged;
    otherwise the user gets the role and the response is 200 with
    modifiedCount 1. With a valid role and an id that is not an
    identifier the response is 500 and the store is unchanged. *)
Theorem patch_users_role_outcomes :
  forall (req : request) (s : db) (clk : nat -> Z),
    let role := req_body req !! "role" in
    let w := serve (patch_users_role req) s clk in
    (includes ["admin"; "user"] role = false ->
     status w = Some 400 /\ store w = s /\ db_calls w = []) /\
    (includes ["admin"; "user"] role = true ->
     forall oid,
       ObjectId_parse (param_id req) = Some oid ->
       let hit := find_first (FEq "_id" (VOid oid)) (users s) in
       (status w = Some 404 <->
        hit = None \/ exists i u, hit = Some (i, u) /\ u !! "role" = role) /\
       (status w = Some 404 -> store w = s) /\
       (forall i u r,
          hit = Some (i, u) -> u !! "role" <> role -> role = Some (VStr r) ->
          sent w = Some (200, role_updated r) /\
          users (store w) = <[i := <["role" := VStr r]> u]> (users s))) /\
    (includes ["admin"; "user"] role = true ->
     ObjectId_parse (param_id req) = None ->
     status w = Some 500 /\ store w = s /\ db_calls w = []).
Proof.
  intros req s clk role w.
  assert (Hdb : mkDb (users s) (riders s) (parcels s) (payments s) (tracking s) = s)
    by (by destruct s).
  split; [|split].
  - intros Hinv. subst w. unfold serve, patch_users_role, db_calls.
    fold role. rewrite Hinv. unfold_monad. world_simpl. by repeat split.
  - intros Hval oid Hparse hit.
    destruct (includes_Some _ _ Hval) as (r & Hr & _).
    subst w. unfold serve, patch_users_role. fold role.
    rewrite Hval. unfold ObjectId_new. rewrite Hparse.
    unfold_monad. unfold coll_updateOne. world_simpl. fold hit.
    rewrite Hr. cbn [bson default from_option id].
    destruct hit as [[i u]|] eqn:Hhit.
    + destruct (find_first_Some _ _ _ _ Hhit) as [Hi _].
      destruct (decide (({[ "role" := VStr r ]} ∪ u : doc) = u)) as [Hsame|Hdiff].
      * world_simpl. unfold status. world_simpl. cbn [fmap option_fmap option_map fst].
        pose proof Hsame as Hrole. apply set_field_same_iff in Hrole.
        split; [split; [intros _; right; eauto|reflexivity]|].
        split.
        { intros _. rewrite Hsame, list_insert_id by exact Hi. exact Hdb. }
        intros i' u' r' [= <- <-] Hne. congruence.
      * world_simpl. unfold status. world_simpl. cbn [fmap option_fmap option_map fst].
        assert (Hrole : u !! "role" <> Some (VStr r))
          by (by rewrite <- set_field_same_iff).
        split.
        { split; [discriminate|].
          intros [[=]|(i' & u' & [= <- <-] & Hu)]. contradiction. }
        split; [discriminate|].
        intros i' u' r' [= <- <-] _ [= <-].
        split; [reflexivity|]. by rewrite set_field_insert.
    + world_simpl. unfold status. world_simpl. cbn [fmap option_fmap option_map fst].
      split; [split; [auto|reflexivity]|].
      split; [intros _; exact Hdb|]. intros i u r' [=].
  - intros Hval Hparse. subst w. unfold serve, patch_users_role, db_calls.
    fold role. rewrite Hval. unfold ObjectId_new. rewrite Hparse.
    unfold_monad. world_simpl. by repeat split.
Qed.

Lemma patch_users_role_outcomes_witness :
  status (serve (patch_users_role (role_request sample_user_id "owner"))
            sample_db sample_clock) = Some 400 /\
  status (serve (patch_users_role (role_request sample_user_id "admin"))
            sample_db sample_clock) = Some 200.
Proof.
  split.
  - destruct (patch_users_role_outcomes (role_request sample_user_id "owner")
                sample_db sample_clock) as [H _].
    destruct H as [H _]; [vm_compute; reflexivity|exact H].
  - destruct (patch_users_role_outcomes (role_request sample_user_id "admin")
                sample_db sample_clock) as [_ H].
    destruct H as [H _].
    destruct (H eq_refl (default 0%N (ObjectId_parse sample_user_id)))
      as (_ & _ & Hok); [vm_compute; reflexivity|].
    destruct (Hok 0 sample_user "admin") as [Hsent _];
      [vm_compute; reflexivity|vm_compute; congruence|vm_compute; reflexivity|].
    unfold status. rewrite Hsent. reflexivity.
Defined.

(** C8, as stated, fails: asking for the role the user already has is
    answered 404 although a user record matches the id. *)
Lemma patch_users_role_same_role_404 :
  let req := role_request sample_user_id "user" in
  let w := serve (patch_users_role req) sample_db sample_clock in
  includes ["admin"; "user"] (req_body req !! "role") = true /\
  refers_to (Some (VStr (param_id req))) (users sample_db) = Some sample_user /\
  status w = Some 404.
Proof. vm_compute. repeat split; reflexivity. Qed.

(** ** GET /parcels/:id and DELETE /parcels/:id *)

Lemma parse_hex_is_Some (s : string) (acc : N) :
  is_Some (parse_hex acc s)
  <-> Forall (fun c => is_hex c = true) (list_ascii_of_string s).
Proof.
  revert acc. induction s as [|c s IH]; intros acc; simpl.
  - split; [constructor|eauto].
  - unfold is_hex at 1. rewrite Forall_cons.
    destruct (hex_digit c) as [d|].
    + rewrite IH. tauto.
    + split; [intros [? [=]]|intros [[=] _]].
Qed.

(** The identifiers [ObjectId.isValid] accepts are the well-formed ones. *)
Lemma ObjectId_isValid_well_formed (s : string) :
  ObjectId_isValid s = true <-> well_formed_id s.
Proof.
  unfold ObjectId_isValid, ObjectId_parse, well_formed_id.
  destruct (Nat.eqb_spec (String.length s) 24) as [Hlen|Hlen].
  - rewrite <- parse_hex_is_Some with (acc := 0%N).
    destruct (parse_hex 0 s); split; intros H.
    + eauto.
    + reflexivity.
    + discriminate.
    + destruct H as [_ [? [=]]].
  - split; [discriminate|tauto].
Qed.

Lemma ObjectId_isValid_malformed (s : string) :
  malformed_id s -> ObjectId_isValid s = false.
Proof.
  intros Hbad. destruct (ObjectId_isValid s) eqn:Hv; [|reflexivity].
  apply ObjectId_isValid_well_formed in Hv as [Hlen Hhex].
  destruct Hbad as [Hne|Hex]; [contradiction|].
  apply Exists_exists in Hex as (c & Hc & Hcf).
  rewrite Forall_forall in Hhex. specialize (Hhex c Hc). congruence.
Qed.

Lemma well_formed_or_malformed (s : string) :
  well_formed_id s \/ malformed_id s.
Proof.
  unfold well_formed_id, malformed_id.
  destruct (decide (String.length s = 24)) as [Hlen|Hlen]; [|auto].
  destruct (decide (Forall (fun c => is_hex c = true) (list_ascii_of_string s)))
    as [Hall|Hnot]; [auto|].
  right. right. apply not_Forall_Exists in Hnot; [|apply _].
  eapply Exists_impl; [exact Hnot|]. intros c Hc. simpl in Hc.
  by destruct (is_hex c).
Qed.

Lemma well_formed_parse (s : string) :
  well_formed_id s -> exists o, ObjectId_parse s = Some o.
Proof.
  intros H%ObjectId_isValid_well_formed. unfold ObjectId_isValid in H.
  destruct (ObjectId_parse s); [eauto|discriminate].
Qed.

(** C9. For a malformed parcel identifier (wrong length or a character
    that is not a hex digit) GET /parcels/:id and DELETE /parcels/:id
    answer 400 and make no call on the store. For a well-formed
    identifier that refers to no stored parcel, GET answers 404, and
    DELETE answers 404 and leaves the store unchanged. *)
Theorem parcel_by_id_errors :
  forall (req : request) (s : db) (clk : nat -> Z),
    let id := param_id req in
    let wg := serve (get_parcel req) s clk in
    let wd := serve (delete_parcel req) s clk in
    (malformed_id id ->
     status wg = Some 400 /\ db_calls wg = [] /\ store wg = s /\
     status wd = Some 400 /\ db_calls wd = [] /\ store wd = s) /\
    (well_formed_id id ->
     refers_to (Some (VStr id)) (parcels s) = None ->
     status wg = Some 404 /\ store wg = s /\
     status wd = Some 404 /\ store wd = s).
Proof.
  intros req s clk id wg wd. split.
  - intros Hbad%ObjectId_isValid_malformed. subst wg wd.
    unfold serve, get_parcel, delete_parcel, db_calls. fold id. rewrite Hbad.
    unfold_monad. world_simpl. by repeat split.
  - intros Hwf Hnone. pose proof Hwf as Hvalid.
    apply ObjectId_isValid_well_formed in Hvalid.
    destruct (well_formed_parse _ Hwf) as [oid Hparse].
    unfold refers_to in Hnone. simpl in Hnone. fold id in Hparse.
    rewrite Hparse in Hnone.
    pose proof Hnone as Hfind. apply coll_findOne_None in Hfind.
    subst wg wd. unfold serve, get_parcel, delete_parcel. fold id.
    rewrite Hvalid. unfold ObjectId_new. rewrite Hparse.
    unfold_monad. unfold coll_deleteOne. world_simpl.
    rewrite Hnone, Hfind. world_simpl. repeat split; try reflexivity.
    by destruct s.
Qed.

Lemma parcel_by_id_errors_witness :
  status (serve (get_parcel (sample_request "12345" None ∅))
            sample_db sample_clock) = Some 400 /\
  status (serve (delete_parcel (sample_request unknown_parcel_id None ∅))
            sample_db sample_clock) = Some 404.
Proof.
  split.
  - destruct (parcel_by_id_errors (sample_request "12345" None ∅)
                sample_db sample_clock) as [H _].
    destruct H as [H _]; [left; vm_compute; lia|exact H].
  - destruct (parcel_by_id_errors (sample_request unknown_parcel_id None ∅)
                sample_db sample_clock) as [_ H].
    destruct H as (_ & _ & H & _); [|vm_compute; reflexivity|exact H].
    split; [reflexivity|]. vm_compute. repeat constructor.
Defined.

(** ** GET /users/search *)

(** C10. GET /users/search with a non-empty email query never answers with
    more than 10 user records: when the query compiles, the response is
    200 with the first 10 stored users whose email matches (all of them
    when there are fewer), so it has exactly 10 records when more than 10
    users match. *)
Theorem users_search_at_most_10 :
  forall (RegExp_i : string -> option regexp) (req : request) (s : db)
         (clk : nat -> Z),
    truthy_str (query_email req) = true ->
    let w := serve (get_users_search RegExp_i req) s clk in
    is_Some (sent w) /\
    length (records w) <= 10 /\
    (forall re,
       RegExp_i (default "" (query_email req)) = Some re ->
       let hits := List.filter (matches (FRegex "email" re)) (users s) in
       sent w = Some (200, BArr (take 10 hits)) /\
       (10 < length hits -> length (records w) = 10)).
Proof.
  intros RegExp_i req s clk Hq w. subst w.
  unfold serve, get_users_search, records, RegExp_new. rewrite Hq.
  destruct (RegExp_i (default "" (query_email req))) as [re|] eqn:Hre.
  - unfold_monad. unfold coll_find. world_simpl. rewrite length_take.
    split; [eauto|]. split; [lia|].
    intros re' [= <-]. split; [reflexivity|]. lia.
  - unfold_monad. world_simpl. split; [eauto|]. split; [simpl; lia|].
    intros re [=].
Qed.

Lemma users_search_at_most_10_witness :
  let w := serve (get_users_search sample_RegExp_i search_request)
             (mkDb eleven_users [] [] [] []) sample_clock in
  length (List.filter (matches (FRegex "email"
            (mkRegexp "alice"
               (fun subject => contains (lower "alice") (lower subject)))))
            eleven_users) = 11 /\
  length (records w) = 10.
Proof.
  destruct (users_search_at_most_10 sample_RegExp_i search_request
              (mkDb eleven_users [] [] [] []) sample_clock eq_refl)
    as (_ & _ & H).
  destruct (H _ eq_refl) as [_ H10].
  cbv zeta. split; [vm_compute; reflexivity|].
  apply H10. vm_compute. lia.
Defined.

(** * Properties of the whole server *)

(** ** Steps that leave the store alone *)

Lemma pure_ret {A : Type} (a : A) : pure_step (mret a : M A).
Proof. intros w. reflexivity. Qed.

Lemma pure_throw {A : Type} (e : error) : pure_step (throw e : M A).
Proof. intros w. reflexivity. Qed.

Lemma pure_emit (e : event) : pure_step (emit e).
Proof. intros w. reflexivity. Qed.

Lemma pure_res_status (c : nat) : pure_step (res_status c).
Proof. intros w. reflexivity. Qed.

Lemma pure_res_json (b : body) : pure_step (res_json b).
Proof. intros w. unfold res_json. world_simpl. by destruct (sent w). Qed.

Lemma pure_res_send (c : nat) (b : body) : pure_step (res_send c b).
Proof.
  intros w. unfold res_send, res_status, res_json, mbind, M_bind.
  world_simpl. by destruct (sent w).
Qed.

Lemma pure_Date_new : pure_step Date_new.
Proof. intros w. reflexivity. Qed.

Lemma pure_findOne (c : coll) (f : filter) : pure_step (findOne c f).
Proof. intros w. reflexivity. Qed.

Lemma pure_find_toArray (c : coll) (f : filter) (sort : option string)
    (limit : option nat) :
  pure_step (find_toArray c f sort limit).
Proof. intros w. reflexivity. Qed.

Lemma pure_ObjectId_new (x : option value) : pure_step (ObjectId_new x).
Proof.
  intros w. unfold ObjectId_new.
  destruct x as [[| | |s| |]|]; try reflexivity.
  by destruct (ObjectId_parse s).
Qed.

Lemma pure_admin_verifyIdToken (vt : string -> option doc) (t : string) :
  pure_step (admin_verifyIdToken vt t).
Proof. intros w. unfold admin_verifyIdToken. by destruct (vt t). Qed.

Lemma pure_RegExp_new (re : string -> option regexp) (src : string) :
  pure_step (RegExp_new re src).
Proof. intros w. unfold RegExp_new. by destruct (re src). Qed.

Lemma pure_stripe (pi : option value -> outcome value) (x : option value) :
  pure_step (stripe_paymentIntents_create pi x).
Proof. intros w. reflexivity. Qed.

(** ** Composing steps under a relation on stores *)

Section Keeps.

Context (R : db -> db -> Prop) `{!Reflexive R, !Transitive R}.

Lemma keeps_pure {A : Type} (m : M A) : pure_step m -> keeps R m.
Proof. intros Hm w. rewrite Hm. reflexivity. Qed.

Lemma keeps_bind {A B : Type} (m : M A) (f : A -> M B) :
  keeps R m -> (forall a, keeps R (f a)) -> keeps R (m ≫= f).
Proof.
  intros Hm Hf w. unfold mbind, M_bind. specialize (Hm w).
  destruct (m w) as [[a|e] w1]; simpl in *; [|exact Hm].
  etrans; [exact Hm|]. apply Hf.
Qed.

Lemma keeps_try_catch {A : Type} (m : M A) (h : error -> M A) :
  keeps R m -> (forall e, keeps R (h e)) -> keeps R (try_catch m h).
Proof.
  intros Hm Hh w. unfold try_catch. specialize (Hm w).
  destruct (m w) as [[a|e] w1]; simpl in *; [exact Hm|].
  etrans; [exact Hm|]. apply Hh.
Qed.

Lemma keeps_detach (m : M unit) : keeps R m -> keeps R (detach m).
Proof.
  intros Hm w. unfold detach. specialize (Hm w).
  destruct (m w) as [[a|e] w1]; exact Hm.
Qed.

(** The three calls that write: it is enough that [R] accepts what they do
    to their collection. *)
Lemma keeps_updateOne (c : coll) (f : filter) (set : doc) :
  (forall s, R s (set_coll c (fst (coll_updateOne f set (get_coll c s))) s)) ->
  keeps R (updateOne c f set).
Proof.
  intros H w. unfold updateOne. world_simpl. specialize (H (store w)).
  by destruct (coll_updateOne f set (get_coll c (store w))).
Qed.

Lemma keeps_deleteOne (c : coll) (f : filter) :
  (forall s, R s (set_coll c (fst (coll_deleteOne f (get_coll c s))) s)) ->
  keeps R (deleteOne c f).
Proof.
  intros H w. unfold deleteOne. world_simpl. specialize (H (store w)).
  by destruct (coll_deleteOne f (get_coll c (store w))).
Qed.

Lemma keeps_insertOne (c : coll) (d : doc) :
  (forall s m l' id,
     coll_insertOne (N.succ (N.max m (max_oid_db s))) d (get_coll c s)
       = Some (l', id) ->
     R s (set_coll c l' s)) ->
  keeps R (insertOne c d).
Proof.
  intros H w. unfold insertOne. world_simpl.
  destruct (coll_insertOne _ d (get_coll c (store w))) as [[l' id]|] eqn:Hins;
    world_simpl; [|reflexivity].
  eapply H. exact Hins.
Qed.

End Keeps.

Ltac unfold_routes :=
  unfold handler, route_get_parcels, route_get_payments,
    get_users_search, patch_users_role, post_users, get_riders_pending,
    get_riders_active, post_riders, patch_riders, get_parcels, get_parcel,
    post_parcels, delete_parcel, post_tracking, get_payments, post_payments,
    post_create_payment_intent, verifyFBToken, console_error,
    console_error_err.

(** A call that leaves the store alone, by the lemma that says so. *)
Ltac keeps_by lem := apply keeps_pure; [typeclasses eauto..|]; apply lem.

(** Walks through a handler; [write] closes the goals of the calls that
    write to the store. *)
Ltac keeps_tac write :=
  repeat
    match goal with
    | |- keeps _ (mbind _ _) =>
        apply keeps_bind; [typeclasses eauto..| |intros ?]
    | |- keeps _ (try_catch _ _) =>
        apply keeps_try_catch; [typeclasses eauto..| |intros ?]
    | |- keeps _ (detach _) => apply keeps_detach
    | |- keeps _ (if ?b then _ else _) => destruct b
    | |- keeps _ (match ?x with _ => _ end) => destruct x
    | |- keeps _ (mret _) => keeps_by @pure_ret
    | |- keeps _ (throw _) => keeps_by @pure_throw
    | |- keeps _ (emit _) => keeps_by pure_emit
    | |- keeps _ (res_send _ _) => keeps_by pure_res_send
    | |- keeps _ (res_json _) => keeps_by pure_res_json
    | |- keeps _ Date_new => keeps_by pure_Date_new
    | |- keeps _ (findOne _ _) => keeps_by pure_findOne
    | |- keeps _ (find_toArray _ _ _ _) => keeps_by pure_find_toArray
    | |- keeps _ (ObjectId_new _) => keeps_by pure_ObjectId_new
    | |- keeps _ (admin_verifyIdToken _ _) =>
        keeps_by pure_admin_verifyIdToken
    | |- keeps _ (RegExp_new _ _) => keeps_by pure_RegExp_new
    | |- keeps _ (stripe_paymentIntents_create _ _) => keeps_by pure_stripe
    | |- keeps _ (updateOne _ _ _) => apply keeps_updateOne; write
    | |- keeps _ (deleteOne _ _) => apply keeps_deleteOne; write
    | |- keeps _ (insertOne _ _) =>
        apply keeps_insertOne; [typeclasses eauto..|write]
    end.

(** ** Each route writes only to its own collections *)

#[global] Instance same_coll_refl (c : coll) : Reflexive (same_coll c).
Proof. intros s. reflexivity. Qed.

#[global] Instance same_coll_trans (c : coll) : Transitive (same_coll c).
Proof. intros s1 s2 s3 H12 H23. unfold same_coll in *. congruence. Qed.

Lemma handler_keeps_same_coll (vt : string -> option doc)
    (re : string -> option regexp) (pi : option value -> outcome value)
    (r : route) (c : coll) (req : request) :
  touches r c = false -> keeps (same_coll c) (handler vt re pi r req).
Proof.
  intros Hfree.
  destruct r, c; try discriminate Hfree; clear Hfree; unfold_routes;
    keeps_tac ltac:(intros; unfold same_coll; reflexivity).
Qed.

(** X1. A route leaves every collection that is not one of its own as it
    was, whatever the request and however the handler ends: writes go to
    users from PATCH /users/:id/role, POST /users and PATCH /riders/:id, to
    riders from POST /riders and PATCH /riders/:id, to parcels from
    POST /parcels, DELETE /parcels/:id and POST /payments, to payments from
    POST /payments, to tracking from POST /tracking, and from nowhere
    else. *)
Theorem routes_write_their_collections_only :
  forall (verifyIdToken : string -> option doc)
         (RegExp_i : string -> option regexp)
         (paymentIntents_create : option value -> outcome value)
         (r : route) (c : coll) (req : request) (s : db) (clk : nat -> Z),
    touches r c = false ->
    get_coll c
      (store (serve (handler verifyIdToken RegExp_i paymentIntents_create r req)
                s clk))
    = get_coll c s.
Proof.
  intros vt re pi r c req s clk Hfree. unfold serve.
  exact (keeps_detach (same_coll c) _
           (handler_keeps_same_coll vt re pi r c req Hfree) (new_world s clk)).
Qed.

(** X2. The GET routes and POST /create-payment-intent are read-only: the
    store after the request is the store before it. *)
Theorem get_routes_read_only :
  forall (verifyIdToken : string -> option doc)
         (RegExp_i : string -> option regexp)
         (paymentIntents_create : option value -> outcome value)
         (r : route) (req : request) (s : db) (clk : nat -> Z),
    is_get r = true \/ r = POST_create_payment_intent ->
    store (serve (handler verifyIdToken RegExp_i paymentIntents_create r req)
             s clk) = s.
Proof.
  intros vt re pi r req s clk Hget.
  assert (Hfree : forall c, touches r c = false).
  { intros c. destruct Hget as [Hget| ->]; [|by destruct c].
    destruct r; try discriminate Hget; by destruct c. }
  assert (H : forall c,
            get_coll c (store (serve (handler vt re pi r req) s clk))
            = get_coll c s).
  { intros c. unfold serve.
    exact (keeps_detach (same_coll c) _
             (handler_keeps_same_coll vt re pi r c req (Hfree c))
             (new_world s clk)). }
  pose proof (H Users). pose proof (H Riders). pose proof (H Parcels).
  pose proof (H Payments). pose proof (H Tracking).
  destruct (store _), s. simpl in *. congruence.
Qed.

(** ** Payments and tracking logs are append-only *)

#[global] Instance append_only_refl : Reflexive append_only.
Proof. intros s. split; reflexivity. Qed.

#[global] Instance append_only_trans : Transitive append_only.
Proof. intros s1 s2 s3 [H1 H2] [H3 H4]. split; etrans; eauto. Qed.

Lemma coll_insertOne_app (fresh : N) (d : doc) (l l' : list doc) (id : value) :
  coll_insertOne fresh d l = Some (l', id) ->
  exists x, l' = l ++ [x] /\ x !! "_id" = Some id /\
            (forall y, y ∈ l -> y !! "_id" <> Some id \/ id = VOid fresh).
Proof.
  unfold coll_insertOne. intros H.
  assert (Hgen : exists x, l ++ [<["_id" := VOid fresh]> d] = l ++ [x] /\
            x !! "_id" = Some (VOid fresh) /\
            (forall y, y ∈ l -> y !! "_id" <> Some (VOid fresh)
                                \/ VOid fresh = VOid fresh)).
  { eexists. split; [reflexivity|]. split; [apply lookup_insert_eq|auto]. }
  destruct (d !! "_id") as [v|] eqn:Hid; [|by simplify_eq].
  destruct v; try by simplify_eq.
  all: destruct (id_taken _ l) eqn:Htaken; simplify_eq;
    (eexists; split; [reflexivity|]; split; [exact Hid|]);
    intros y Hy; left; intros Hyid;
    (assert (id_taken (default VNull (d !! "_id")) l = true) as Ht;
     [|rewrite Hid in Ht; simpl in Ht; congruence]);
    unfold id_taken; apply existsb_exists; exists y;
    (split; [by apply list_elem_of_In|]);
    rewrite Hid; simpl; by apply bool_decide_eq_true.
Qed.

Lemma handler_append_only (vt : string -> option doc)
    (re : string -> option regexp) (pi : option value -> outcome value)
    (r : route) (req : request) :
  keeps append_only (handler vt re pi r req).
Proof.
  destruct r; unfold_routes;
    keeps_tac ltac:(
      first
        [ by (intros; split; reflexivity)
        | intros ? ? ? ? (x & -> & _)%coll_insertOne_app;
          split; cbn; try reflexivity; by apply prefix_app_r ]).
Qed.

(** X3. No route ever changes or removes a stored payment record or a
    stored tracking log: after any request the payments and the tracking
    logs of before are a prefix of those of after. *)
Theorem payments_and_tracking_append_only :
  forall (verifyIdToken : string -> option doc)
         (RegExp_i : string -> option regexp)
         (paymentIntents_create : option value -> outcome value)
         (r : route) (req : request) (s : db) (clk : nat -> Z),
    append_only s
      (store (serve (handler verifyIdToken RegExp_i paymentIntents_create r req)
                s clk)).
Proof.
  intros vt re pi r req s clk. unfold serve.
  exact (keeps_detach append_only _ (handler_append_only vt re pi r req)
           (new_world s clk)).
Qed.

(** ** Collections stay well keyed *)

#[global] Instance keys_kept_refl : Reflexive keys_kept.
Proof. intros s H. exact H. Qed.

#[global] Instance keys_kept_trans : Transitive keys_kept.
Proof. intros s1 s2 s3 H12 H23 H. auto. Qed.

#[global] Instance coll_eq_dec : EqDecision coll.
Proof. solve_decision. Defined.

Lemma get_set_coll (c c' : coll) (l : list doc) (s : db) :
  get_coll c (set_coll c' l s) = if decide (c = c') then l else get_coll c s.
Proof. destruct c, c'; reflexivity. Qed.

Lemma keys_kept_set (c : coll) (l' : list doc) (s : db) :
  (well_keyed (get_coll c s) -> well_keyed l') ->
  keys_kept s (set_coll c l' s).
Proof.
  intros H Hs c'. rewrite get_set_coll.
  destruct (decide (c' = c)) as [->|]; auto.
Qed.

Lemma well_keyed_updateOne (f : filter) (set : doc) (l : list doc) :
  set !! "_id" = None ->
  well_keyed l -> well_keyed (fst (coll_updateOne f set l)).
Proof.
  intros Hset [Hnd Hall]. unfold coll_updateOne.
  destruct (find_first f l) as [[i d]|] eqn:Hfind; simpl; [|by split].
  destruct (find_first_Some _ _ _ _ Hfind) as [Hi _].
  assert (Hid : (set ∪ d) !! "_id" = d !! "_id").
  { by rewrite lookup_union_r. }
  split.
  - unfold doc_ids. rewrite list_fmap_insert, Hid.
    rewrite list_insert_id; [exact Hnd|].
    by rewrite list_lookup_fmap, Hi.
  - apply Forall_insert; [exact Hall|]. rewrite Hid.
    rewrite Forall_lookup in Hall. by apply (Hall i).
Qed.

Lemma well_keyed_deleteOne (f : filter) (l : list doc) :
  well_keyed l -> well_keyed (fst (coll_deleteOne f l)).
Proof.
  intros [Hnd Hall]. unfold coll_deleteOne.
  destruct (find_first f l) as [[i d]|]; simpl; [|by split].
  split; [|by apply Forall_delete].
  unfold doc_ids. rewrite list_fmap_delete.
  eapply sublist_NoDup; [exact Hnd|apply sublist_delete].
Qed.

Lemma well_keyed_insertOne (c : coll) (s : db) (m : N) (d : doc)
    (l' : list doc) (id : value) :
  coll_insertOne (N.succ (N.max m (max_oid_db s))) d (get_coll c s)
    = Some (l', id) ->
  well_keyed (get_coll c s) -> well_keyed l'.
Proof.
  intros (x & -> & Hx & Hfresh)%coll_insertOne_app [Hnd Hall].
  assert (Hnew : forall y, y ∈ get_coll c s -> y !! "_id" <> Some id).
  { intros y Hy. destruct (Hfresh y Hy) as [?| ->]; [done|].
    by apply (generated_id_unused c). }
  split.
  - unfold doc_ids. rewrite fmap_app. apply NoDup_app.
    split; [exact Hnd|]. split; [|apply NoDup_singleton].
    intros o [y [-> Hy]]%list_elem_of_fmap Hin.
    apply list_elem_of_singleton in Hin. simpl in Hin.
    apply (Hnew y Hy). congruence.
  - apply Forall_app. split; [exact Hall|].
    apply Forall_singleton. rewrite Hx. eauto.
Qed.

Lemma handler_keeps_keys (vt : string -> option doc)
    (re : string -> option regexp) (pi : option value -> outcome value)
    (r : route) (req : request) :
  keeps keys_kept (handler vt re pi r req).
Proof.
  destruct r; unfold_routes;
    keeps_tac ltac:(
      intros; apply keys_kept_set;
      first [ by apply well_keyed_updateOne
            | by apply well_keyed_deleteOne
            | by eapply well_keyed_insertOne ]).
Qed.

(** X4. Every route keeps the collections well keyed: if before the request
    every stored document has an [_id] and no two documents of a collection
    share one, the same holds after it, whatever the request. *)
Theorem routes_keep_collections_well_keyed :
  forall (verifyIdToken : string -> option doc)
         (RegExp_i : string -> option regexp)
         (paymentIntents_create : option value -> outcome value)
         (r : route) (req : request) (s : db) (clk : nat -> Z),
    db_well_keyed s ->
    db_well_keyed
      (store (serve (handler verifyIdToken RegExp_i paymentIntents_create r req)
                s clk)).
Proof.
  intros vt re pi r req s clk. unfold serve.
  exact (keeps_detach keys_kept _ (handler_keeps_keys vt re pi r req)
           (new_world s clk)).
Qed.

(** ** Which requests are answered *)

Lemma answers_res_json (b : body) : answers (res_json b).
Proof.
  intros w. unfold res_json. world_simpl.
  destruct (sent w) eqn:Hs; world_simpl; rewrite ?Hs; eauto.
Qed.

Lemma answers_res_send (c : nat) (b : body) : answers (res_send c b).
Proof.
  intros w. unfold res_send, res_status, res_json, mbind, M_bind.
  world_simpl. destruct (sent w) eqn:Hs; world_simpl; rewrite ?Hs; eauto.
Qed.

Lemma answers_after_emit (e : event) (k : M unit) :
  answers k -> answers (emit e ≫= fun _ => k).
Proof. intros Hk w. apply Hk. Qed.

Lemma answers_try_catch {A : Type} (m : M A) (h : error -> M A) :
  answers_on_return m -> (forall e, answers (h e)) -> answers (try_catch m h).
Proof.
  intros Hm Hh w. unfold try_catch.
  destruct (m w) as [[a|e] w1] eqn:Hmw; [|apply Hh].
  exact (Hm w a w1 Hmw).
Qed.

Lemma answers_detach (m : M unit) : answers m -> answers (detach m).
Proof.
  intros Hm w. unfold detach. specialize (Hm w).
  destruct (m w) as [[a|e] w1]; exact Hm.
Qed.

Lemma aor_answers {A : Type} (m : M A) : answers m -> answers_on_return m.
Proof. intros Hm w a w' Hw. specialize (Hm w). by rewrite Hw in Hm. Qed.

Lemma aor_bind {A B : Type} (m : M A) (f : A -> M B) :
  (forall a, answers_on_return (f a)) -> answers_on_return (m ≫= f).
Proof.
  intros Hf w b w'. unfold mbind, M_bind.
  destruct (m w) as [[a|e] w1]; [|discriminate]. apply Hf.
Qed.

Ltac answers_tac :=
  repeat
    match goal with
    | |- answers (if ?b then _ else _) => destruct b
    | |- answers (match ?x with _ => _ end) => destruct x
    | |- answers (try_catch _ _) => apply answers_try_catch; [|intros ?]
    | |- answers (detach _) => apply answers_detach
    | |- answers (res_send _ _) => apply answers_res_send
    | |- answers (res_json _) => apply answers_res_json
    | |- answers (emit _ ≫= _) => apply answers_after_emit
    | |- answers_on_return (if ?b then _ else _) => destruct b
    | |- answers_on_return (match ?x with _ => _ end) => destruct x
    | |- answers_on_return (mbind _ _) => apply aor_bind; intros ?
    | |- answers_on_return (res_send _ _) => apply aor_answers
    | |- answers_on_return (res_json _) => apply aor_answers
    | |- answers_on_return (detach _) => apply aor_answers
    end.

Lemma handler_answers (vt : string -> option doc)
    (re : string -> option regexp) (pi : option value -> outcome value)
    (r : route) (req : request) :
  r <> PATCH_riders -> r <> POST_riders -> r <> POST_payments ->
  answers (handler vt re pi r req).
Proof.
  intros H1 H2 H3. destruct r; try congruence; clear H1 H2 H3;
    unfold_routes; answers_tac.
Qed.

(** X5. On a store that answers its calls, every route other than
    PATCH /riders/:id, POST /riders and POST /payments answers every
    request whose body Express has parsed to an object: whatever the
    headers, the parameters, the query and the fields of that body, the
    stored data and the answers of the identity provider and of the
    payment provider, its handler has sent a response when it ends.
    (Requests without a parsed body are not covered.) *)
Theorem routes_always_answer :
  forall (verifyIdToken : string -> option doc)
         (RegExp_i : string -> option regexp)
         (paymentIntents_create : option value -> outcome value)
         (r : route) (req : request) (s : db) (clk : nat -> Z),
    r <> PATCH_riders -> r <> POST_riders -> r <> POST_payments ->
    is_Some
      (sent (serve (handler verifyIdToken RegExp_i paymentIntents_create r req)
               s clk)).
Proof.
  intros vt re pi r req s clk H1 H2 H3. unfold serve.
  exact (answers_detach _ (handler_answers vt re pi r req H1 H2 H3)
           (new_world s clk)).
Qed.

(** * Properties of single routes *)

(** ** POST /payments: required fields *)



(** ** GET and DELETE /parcels/:id on a stored parcel *)

Lemma refers_to_str (id : string) (l : list doc) (p : doc) :
  refers_to (Some (VStr id)) l = Some p ->
  exists oid i, ObjectId_parse id = Some oid /\
                find_first (FEq "_id" (VOid oid)) l = Some (i, p).
Proof. intros (oid & i & Hoid & Hfind)%refers_to_Some. eauto. Qed.

Lemma parse_isValid (id : string) (oid : N) :
  ObjectId_parse id = Some oid -> ObjectId_isValid id = true.
Proof. unfold ObjectId_isValid. by intros ->. Qed.

(** X7. GET /parcels/:id with the identifier of a stored parcel is answered
    200 with that parcel, and leaves the store as it was. *)
Theorem get_parcel_found :
  forall (req : request) (s : db) (clk : nat -> Z) (p : doc),
    refers_to (Some (VStr (param_id req))) (parcels s) = Some p ->
    let w := serve (get_parcel req) s clk in
    sent w = Some (200, BObj p) /\ store w = s.
Proof.
  intros req s clk p (oid & i & Hparse & Hfind)%refers_to_str w. subst w.
  unfold serve, get_parcel. rewrite (parse_isValid _ _ Hparse).
  unfold ObjectId_new. rewrite Hparse.
  unfold_monad. unfold coll_findOne. world_simpl. rewrite Hfind.
  by repeat split.
Qed.

Lemma get_parcel_found_witness :
  status (serve (get_parcel (sample_request sample_parcel_id None ∅))
            sample_db sample_clock) = Some 200.
Proof.
  destruct (get_parcel_found (sample_request sample_parcel_id None ∅)
              sample_db sample_clock sample_parcel) as [Hsent _];
    [reflexivity|].
  unfold status. rewrite Hsent. reflexivity.
Defined.

(** In a well-keyed collection, the document an [_id] selects is the only
    one with that [_id]: once it is removed the [_id] selects nothing. *)
Lemma find_first_delete (l : list doc) (v : value) (i : nat) (p : doc) :
  well_keyed l -> v <> VNull ->
  find_first (FEq "_id" v) l = Some (i, p) ->
  find_first (FEq "_id" v) (delete i l) = None.
Proof.
  intros [Hnd _] Hv Hfind.
  destruct (find_first_Some _ _ _ _ Hfind) as [Hi Hm].
  assert (Hmatch : forall d, matches (FEq "_id" v) d = true -> d !! "_id" = Some v).
  { intros d. destruct v; simpl; try congruence; apply bool_decide_eq_true. }
  apply Hmatch in Hm.
  apply list_find_None, Forall_forall. intros d Hd Hdm. apply Hmatch in Hdm.
  apply list_elem_of_lookup in Hd as [j Hj].
  assert (Hids : forall k x, l !! k = Some x -> doc_ids l !! k = Some (x !! "_id")).
  { intros k x Hk. unfold doc_ids. by rewrite list_lookup_fmap, Hk. }
  destruct (decide (j < i)) as [Hlt|Hge].
  - rewrite list_lookup_delete_lt in Hj by exact Hlt.
    pose proof (NoDup_lookup _ i j _ Hnd (Hids _ _ Hi)) as Heq.
    rewrite Hm, <- Hdm in Heq. specialize (Heq (Hids _ _ Hj)). lia.
  - rewrite list_lookup_delete_ge in Hj by lia.
    pose proof (NoDup_lookup _ i (S j) _ Hnd (Hids _ _ Hi)) as Heq.
    rewrite Hm, <- Hdm in Heq. specialize (Heq (Hids _ _ Hj)). lia.
Qed.

Lemma parcel_miss (req : request) (s : db) (clk : nat -> Z) (oid : N) :
  ObjectId_parse (param_id req) = Some oid ->
  find_first (FEq "_id" (VOid oid)) (parcels s) = None ->
  status (serve (get_parcel req) s clk) = Some 404 /\
  status (serve (delete_parcel req) s clk) = Some 404.
Proof.
  intros Hparse Hfind. unfold serve, get_parcel, delete_parcel.
  rewrite (parse_isValid _ _ Hparse). unfold ObjectId_new. rewrite Hparse.
  unfold_monad. unfold coll_findOne, coll_deleteOne. world_simpl.
  rewrite Hfind. by split.
Qed.

(** X8. DELETE /parcels/:id with the identifier of a stored parcel removes
    that parcel and nothing else and is answered 200 with deletedCount 1;
    in a well-keyed store the identifier then refers to no parcel, so that
    a GET or a second DELETE of it is answered 404. *)
Theorem delete_parcel_found :
  forall (req : request) (s : db) (clk clk' : nat -> Z) (p : doc),
    refers_to (Some (VStr (param_id req))) (parcels s) = Some p ->
    let w := serve (delete_parcel req) s clk in
    sent w = Some (200, parcel_deleted) /\
    (exists i, parcels s !! i = Some p /\
               parcels (store w) = delete i (parcels s)) /\
    length (parcels (store w)) + 1 = length (parcels s) /\
    (well_keyed (parcels s) ->
     refers_to (Some (VStr (param_id req))) (parcels (store w)) = None /\
     status (serve (get_parcel req) (store w) clk') = Some 404 /\
     status (serve (delete_parcel req) (store w) clk') = Some 404).
Proof.
  intros req s clk clk' p (oid & i & Hparse & Hfind)%refers_to_str w.
  destruct (find_first_Some _ _ _ _ Hfind) as [Hi _].
  assert (Hw : sent w = Some (200, parcel_deleted) /\
               parcels (store w) = delete i (parcels s)).
  { subst w. unfold serve, delete_parcel.
    rewrite (parse_isValid _ _ Hparse). unfold ObjectId_new. rewrite Hparse.
    unfold_monad. unfold coll_deleteOne. world_simpl. rewrite Hfind.
    by split. }
  destruct Hw as [Hsent Hparcels].
  split; [exact Hsent|]. split; [eauto|].
  split.
  { rewrite Hparcels, length_delete by eauto.
    apply lookup_lt_Some in Hi. lia. }
  intros Hkeyed.
  assert (Hgone : find_first (FEq "_id" (VOid oid)) (parcels (store w)) = None).
  { rewrite Hparcels. eapply find_first_delete; eauto. }
  assert (Hrefers : refers_to (Some (VStr (param_id req))) (parcels (store w))
                    = None).
  { unfold refers_to. simpl. rewrite Hparse. by apply coll_findOne_None. }
  split; [exact Hrefers|].
  exact (parcel_miss req (store w) clk' oid Hparse Hgone).
Qed.

Lemma delete_parcel_found_witness :
  let req := sample_request sample_parcel_id None ∅ in
  let w := serve (delete_parcel req) sample_db sample_clock in
  status w = Some 200 /\
  status (serve (get_parcel req) (store w) sample_clock) = Some 404.
Proof.
  destruct (delete_parcel_found (sample_request sample_parcel_id None ∅)
              sample_db sample_clock sample_clock sample_parcel)
    as (Hsent & _ & _ & Hafter); [reflexivity|].
  cbv zeta. unfold status at 1. rewrite Hsent. split; [reflexivity|].
  apply Hafter. split.
  - apply NoDup_singleton.
  - apply Forall_singleton. eexists. reflexivity.
Defined.

(** ** GET /users/search: rejected queries *)

(** X9. GET /users/search without an email, or with an empty one, is
    answered 400, and with an email that is not a regular expression it is
    answered 500 with an object whose one field, error, holds a message
    (the engine's; which one is not stated); in both cases the store is
    not called. *)
Theorem users_search_rejections :
  forall (RegExp_i : string -> option regexp) (req : request) (s : db)
         (clk : nat -> Z),
    let w := serve (get_users_search RegExp_i req) s clk in
    (truthy_str (query_email req) = false ->
     sent w = Some (400, msg "message" "Email is required") /\
     db_calls w = [] /\ store w = s) /\
    (truthy_str (query_email req) = true ->
     RegExp_i (default "" (query_email req)) = None ->
     (exists m, sent w = Some (500, msg "error" m)) /\
     db_calls w = [] /\ store w = s).
Proof.
  intros re req s clk w. subst w. unfold serve, get_users_search, db_calls.
  split.
  - intros ->. unfold_monad. world_simpl. by repeat split.
  - intros -> Hre. unfold RegExp_new. rewrite Hre.
    unfold_monad. world_simpl. split; [eexists; reflexivity|by split].
Qed.

Lemma users_search_rejections_witness :
  status (serve (get_users_search sample_RegExp_i (sample_request "" (Some "") ∅))
            sample_db sample_clock) = Some 400.
Proof.
  destruct (users_search_rejections sample_RegExp_i
              (sample_request "" (Some "") ∅) sample_db sample_clock)
    as [H _].
  destruct H as [Hsent _]; [reflexivity|].
  unfold status. rewrite Hsent. reflexivity.
Defined.

(** ** Sorted listings *)

(** What a sorted [find] returns: the matching documents of the
    collection, each once, in non-increasing order of the key. *)
Lemma coll_find_sorted_spec (f : filter) (k : string) (l : list doc) :
  let recs := coll_find f (Some k) None l in
  recs ≡ₚ List.filter (matches f) l /\
  Sorted (desc_by k) recs /\
  (forall d, d ∈ recs <-> d ∈ l /\ matches f d = true).
Proof.
  intros recs. split; [apply coll_find_all_Permutation|].
  split; [apply coll_find_all_Sorted|].
  intros d. subst recs. rewrite coll_find_all_Permutation.
  rewrite !list_elem_of_In, filter_In. tauto.
Qed.

Lemma filter_FAll (l : list doc) : List.filter (matches FAll) l = l.
Proof. induction l as [|d l IH]; simpl; [reflexivity|]. by rewrite IH. Qed.

(** X10. GET /riders/pending is answered 200 with exactly the riders whose
    status is "pending", and GET /riders/active with exactly those whose
    status is "accepted", each rider once, latest created first; neither
    changes the store. *)
Theorem riders_listings :
  forall (req : request) (s : db) (clk : nat -> Z),
    (exists recs,
       sent (serve (get_riders_pending req) s clk) = Some (200, BArr recs) /\
       listing (FEq "status" (VStr "pending")) "created_at" (riders s) recs /\
       store (serve (get_riders_pending req) s clk) = s) /\
    (exists recs,
       sent (serve (get_riders_active req) s clk) = Some (200, BArr recs) /\
       listing (FEq "status" (VStr "accepted")) "created_at" (riders s) recs /\
       store (serve (get_riders_active req) s clk) = s).
Proof.
  intros req s clk. split.
  - eexists. unfold serve, get_riders_pending. unfold_monad. world_simpl.
    split; [reflexivity|]. split; [apply coll_find_sorted_spec|reflexivity].
  - eexists. unfold serve, get_riders_active. unfold_monad. world_simpl.
    split; [reflexivity|]. split; [apply coll_find_sorted_spec|reflexivity].
Qed.

(** ** GET /parcels and GET /payments behind the token verifier *)

(** X11. GET /parcels does not look at who asks: for any token the identity
    provider accepts, whatever its claims, the answer is 200 with the
    parcels created by the email of the query string, or with every
    parcel when the query has no email (or an empty one), latest created
    first; the store is unchanged. *)
Theorem get_parcels_ignores_identity :
  forall (verifyIdToken : string -> option doc) (req : request) (s : db)
         (clk : nat -> Z) (t : string) (claims : doc),
    startsWith "Bearer " (authorization req) = true ->
    token_of (authorization req) = Some t ->
    t <> "" ->
    verifyIdToken t = Some claims ->
    let w := serve (route_get_parcels verifyIdToken req) s clk in
    exists recs,
      sent w = Some (200, BArr recs) /\
      listing (parcels_query (query_email req)) "creation_date" (parcels s)
        recs /\
      store w = s /\ rejected w = None.
Proof.
  intros vt req s clk t claims Hpre Ht Hne Hv w. subst w.
  unfold route_get_parcels.
  rewrite (verifyFBToken_accepts vt req s clk get_parcels t claims
             Hpre Ht Hne Hv).
  eexists. unfold get_parcels, verified_world.
  change (query_email (set_user claims req)) with (query_email req).
  unfold_monad. world_simpl.
  split; [reflexivity|]. split; [apply coll_find_sorted_spec|by split].
Qed.

Lemma get_parcels_ignores_identity_witness :
  status (serve (route_get_parcels sample_verifyIdToken mismatch_request)
            sample_db sample_clock) = Some 200.
Proof.
  destruct (get_parcels_ignores_identity sample_verifyIdToken
              mismatch_request sample_db sample_clock "alice-token"
              {[ "email" := VStr "alice@example.com" ]})
    as (recs & Hsent & _); [first [reflexivity|discriminate]..|].
  unfold status. rewrite Hsent. reflexivity.
Defined.

Lemma get_payments_match (vt : string -> option doc) (req : request) (s : db)
    (clk : nat -> Z) (t : string) (claims : doc) :
  startsWith "Bearer " (authorization req) = true ->
  token_of (authorization req) = Some t ->
  t <> "" ->
  vt t = Some claims ->
  claims !! "email" = (VStr <$> query_email req) ->
  let w := serve (route_get_payments vt req) s clk in
  sent w = Some (200, BArr (coll_find (payments_query (query_email req))
                              (Some "paid_at") None (payments s))) /\
  store w = s /\ rejected w = None.
Proof.
  intros Hpre Ht Hne Hv Hsame w. subst w. unfold route_get_payments.
  rewrite (verifyFBToken_accepts vt req s clk get_payments t claims
             Hpre Ht Hne Hv).
  unfold get_payments, verified_world.
  change (req_user (set_user claims req)) with (Some claims).
  change (query_email (set_user claims req)) with (query_email req).
  change (Some claims ≫= (fun u : doc => u !! "email"))
    with (claims !! "email").
  rewrite bool_decide_false by (intros H; by apply H).
  fold (payments_query (query_email req)).
  unfold_monad. world_simpl. by repeat split.
Qed.

(** X12. GET /payments with a verified token whose email is the email of
    the query string is answered 200 with exactly the payment records of
    that email, each once, latest paid first, and the store is
    unchanged. *)
Theorem get_payments_own :
  forall (verifyIdToken : string -> option doc) (req : request) (s : db)
         (clk : nat -> Z) (t : string) (claims : doc) (e : string),
    startsWith "Bearer " (authorization req) = true ->
    token_of (authorization req) = Some t ->
    t <> "" ->
    verifyIdToken t = Some claims ->
    query_email req = Some e -> e <> "" ->
    claims !! "email" = Some (VStr e) ->
    let w := serve (route_get_payments verifyIdToken req) s clk in
    exists recs,
      sent w = Some (200, BArr recs) /\
      listing (FEq "email" (VStr e)) "paid_at" (payments s) recs /\
      store w = s /\ rejected w = None.
Proof.
  intros vt req s clk t claims e Hpre Ht Hne Hv He Hne' Hc w.
  destruct (get_payments_match vt req s clk t claims Hpre Ht Hne Hv)
    as (Hsent & Hstore & Hrej); [by rewrite He|].
  eexists. split; [exact Hsent|].
  split; [|by split].
  rewrite He. unfold payments_query.
  rewrite (nonempty_truthy e Hne'). apply coll_find_sorted_spec.
Qed.

Lemma get_payments_own_witness :
  status (serve (route_get_payments sample_verifyIdToken own_request)
            sample_db sample_clock) = Some 200.
Proof.
  destruct (get_payments_own sample_verifyIdToken own_request sample_db
              sample_clock "alice-token"
              {[ "email" := VStr "alice@example.com" ]} "alice@example.com")
    as (recs & Hsent & _); [first [reflexivity|discriminate]..|].
  unfold status. rewrite Hsent. reflexivity.
Defined.

(** X13. GET /payments compares the email of the token with the email of
    the query as they are, present or not: a verified token that carries
    no email claim, on a request without an email in the query, passes the
    guard, and the answer is every payment record of the store. *)
Theorem get_payments_without_email_lists_all :
  forall (verifyIdToken : string -> option doc) (req : request) (s : db)
         (clk : nat -> Z) (t : string) (claims : doc),
    startsWith "Bearer " (authorization req) = true ->
    token_of (authorization req) = Some t ->
    t <> "" ->
    verifyIdToken t = Some claims ->
    claims !! "email" = None ->
    query_email req = None ->
    let w := serve (route_get_payments verifyIdToken req) s clk in
    exists recs,
      sent w = Some (200, BArr recs) /\
      recs ≡ₚ payments s /\
      Sorted (desc_by "paid_at") recs.
Proof.
  intros vt req s clk t claims Hpre Ht Hne Hv Hc Hq w.
  destruct (get_payments_match vt req s clk t claims Hpre Ht Hne Hv)
    as (Hsent & _); [by rewrite Hc, Hq|].
  eexists. split; [exact Hsent|]. rewrite Hq.
  split; [|apply coll_find_all_Sorted].
  rewrite coll_find_all_Permutation.
  change (payments_query None) with FAll. by rewrite filter_FAll.
Qed.

Lemma get_payments_without_email_lists_all_witness :
  status (serve (route_get_payments anonymous_verifyIdToken anonymous_request)
            sample_db sample_clock) = Some 200.
Proof.
  destruct (get_payments_without_email_lists_all anonymous_verifyIdToken
              anonymous_request sample_db sample_clock "anonymous-token"
              {[ "uid" := VStr "u42" ]})
    as (recs & Hsent & _); [first [reflexivity|discriminate]..|].
  unfold status. rewrite Hsent. reflexivity.
Defined.

(** ** Inserting routes: POST /riders, POST /parcels, POST /tracking *)

Lemma coll_insertOne_clash (fresh : N) (b : doc) (l : list doc) :
  id_clash b l -> coll_insertOne fresh b l = None.
Proof.
  intros (v & Hid & Hv & Ht). unfold coll_insertOne. rewrite Hid.
  destruct v; try congruence; by rewrite Ht.
Qed.

Lemma id_free_or_clash (b : doc) (l : list doc) : id_free b l \/ id_clash b l.
Proof.
  unfold id_free, id_clash. destruct (b !! "_id") as [v|]; [|by left].
  destruct (decide (v = VNull)) as [->|Hv]; [by left|].
  destruct (id_taken v l) eqn:Ht.
  - right. eauto.
  - left. by destruct v.
Qed.

(** What a successful insert adds: one document at the end, the body under
    its [_id], which no document of the collection had. *)
Lemma coll_insertOne_new (c : coll) (s : db) (m : N) (d : doc)
    (l' : list doc) (id : value) :
  coll_insertOne (N.succ (N.max m (max_oid_db s))) d (get_coll c s)
    = Some (l', id) ->
  exists x, l' = get_coll c s ++ [x] /\
            x !! "_id" = Some id /\
            (forall k, k <> "_id" -> x !! k = d !! k) /\
            (forall y, y ∈ get_coll c s -> y !! "_id" <> Some id).
Proof.
  intros Hins. pose proof Hins as (x & -> & Hx & Hfresh)%coll_insertOne_app.
  exists x. split; [reflexivity|]. split; [exact Hx|]. split.
  - unfold coll_insertOne in Hins.
    destruct (d !! "_id") as [v|] eqn:Hid.
    + destruct v; try (destruct (id_taken _ _); simplify_eq; done);
        simplify_eq; intros; by apply lookup_insert_ne.
    + simplify_eq. intros. by apply lookup_insert_ne.
  - intros y Hy. destruct (Hfresh y Hy) as [?| ->]; [done|].
    by apply (generated_id_unused c).
Qed.

(** X14. POST /riders appends the body to the riders, under the [_id] it
    brings or a generated one, and answers 201 with that [_id], unless the
    body brings an [_id] a stored rider already has. In that case nothing
    is inserted and the handler sends no response: the catch block names
    a variable that does not exist and the handler ends with a
    ReferenceError. *)
Theorem post_riders_outcomes :
  forall (req : request) (s : db) (clk : nat -> Z),
    let w := serve (post_riders req) s clk in
    (id_free (req_body req) (riders s) ->
     exists id u,
       sent w = Some (201, rider_created id) /\
       riders (store w) = riders s ++ [u] /\
       u !! "_id" = Some id /\
       (forall k, k <> "_id" -> u !! k = req_body req !! k)) /\
    (id_clash (req_body req) (riders s) ->
     sent w = None /\
     rejected w = Some ReferenceError_err /\
     store w = s).
Proof.
  intros req s clk w. subst w. unfold serve, post_riders. split.
  - intros Hfree. unfold_monad. world_simpl.
    match goal with
    | |- context [coll_insertOne ?f _ _] =>
        destruct (coll_insertOne_free f _ _ Hfree) as (id & u & -> & Hid & Hk)
    end.
    world_simpl. exists id, u. by repeat split.
  - intros Hclash. unfold_monad. world_simpl.
    rewrite coll_insertOne_clash by exact Hclash. world_simpl.
    by repeat split.
Qed.

Lemma post_riders_outcomes_witness :
  status (serve (post_riders rider_application) sample_db sample_clock)
  = Some 201.
Proof.
  destruct (post_riders_outcomes rider_application sample_db sample_clock)
    as [H _].
  destruct H as (id & u & Hsent & _); [exact I|].
  unfold status. rewrite Hsent. reflexivity.
Defined.

(** X15. POST /parcels appends the body to the parcels, under the [_id] it
    brings or a generated one, and answers 200 with the insert result;
    when the body brings an [_id] a stored parcel already has, it answers
    500 and the store is unchanged. *)
Theorem post_parcels_outcomes :
  forall (req : request) (s : db) (clk : nat -> Z),
    let w := serve (post_parcels req) s clk in
    (id_free (req_body req) (parcels s) ->
     exists id u,
       sent w = Some (200, BObj (insert_result_doc id)) /\
       parcels (store w) = parcels s ++ [u] /\
       u !! "_id" = Some id /\
       (forall k, k <> "_id" -> u !! k = req_body req !! k)) /\
    (id_clash (req_body req) (parcels s) ->
     sent w = Some (500, parcel_insert_failed) /\ store w = s).
Proof.
  intros req s clk w. subst w. unfold serve, post_parcels. split.
  - intros Hfree. unfold_monad. world_simpl.
    match goal with
    | |- context [coll_insertOne ?f _ _] =>
        destruct (coll_insertOne_free f _ _ Hfree) as (id & u & -> & Hid & Hk)
    end.
    world_simpl. exists id, u. by repeat split.
  - intros Hclash. unfold_monad. world_simpl.
    rewrite coll_insertOne_clash by exact Hclash. world_simpl.
    by repeat split.
Qed.

Lemma post_parcels_outcomes_witness :
  status (serve (post_parcels parcel_booking) sample_db sample_clock)
  = Some 200.
Proof.
  destruct (post_parcels_outcomes parcel_booking sample_db sample_clock)
    as [H _].
  destruct H as (id & u & Hsent & _); [exact I|].
  unfold status. rewrite Hsent. reflexivity.
Defined.

Lemma find_first_snoc (v : value) (l : list doc) (x : doc) :
  v <> VNull ->
  x !! "_id" = Some v ->
  (forall y, y ∈ l -> y !! "_id" <> Some v) ->
  find_first (FEq "_id" v) (l ++ [x]) = Some (length l, x).
Proof.
  intros Hv Hx Hnew. unfold find_first.
  assert (Hm : forall d, matches (FEq "_id" v) d = true <-> d !! "_id" = Some v).
  { intros d. destruct v; simpl; try congruence; apply bool_decide_eq_true. }
  rewrite list_find_app_r.
  - simpl. rewrite decide_True by (by apply Hm). reflexivity.
  - apply list_find_None, Forall_forall. intros y Hy Hmy.
    apply (Hnew y Hy). by apply Hm.
Qed.

(** X16. A parcel posted with POST /parcels can be read back: when the
    insert succeeds with an ObjectId as insertedId, a GET /parcels/:id
    with an identifier that spells that ObjectId is answered 200 with the
    posted body under that [_id]. *)
Theorem post_parcels_then_get :
  forall (req req' : request) (s : db) (clk clk' : nat -> Z),
    id_free (req_body req) (parcels s) ->
    let w := serve (post_parcels req) s clk in
    exists id,
      sent w = Some (200, BObj (insert_result_doc id)) /\
      (forall oid,
         id = VOid oid ->
         ObjectId_parse (param_id req') = Some oid ->
         exists p,
           sent (serve (get_parcel req') (store w) clk') = Some (200, BObj p) /\
           p !! "_id" = Some id /\
           (forall k, k <> "_id" -> p !! k = req_body req !! k)).
Proof.
  intros req req' s clk clk' Hfree w.
  assert (H : exists id x,
            sent w = Some (200, BObj (insert_result_doc id)) /\
            parcels (store w) = parcels s ++ [x] /\
            x !! "_id" = Some id /\
            (forall k, k <> "_id" -> x !! k = req_body req !! k) /\
            (forall y, y ∈ parcels s -> y !! "_id" <> Some id)).
  { subst w. unfold serve, post_parcels. unfold_monad. world_simpl.
    match goal with
    | |- context [coll_insertOne ?f _ _] =>
        destruct (coll_insertOne_free f _ _ Hfree) as (id & u & Hins & _)
    end.
    pose proof (coll_insertOne_new Parcels s 0 _ _ _ Hins)
      as (x & Heq & Hx & Hk & Hnew).
    rewrite Hins. world_simpl. exists id, x. simpl in Heq.
    apply app_inj_tail in Heq as [_ <-]. by repeat split. }
  destruct H as (id & x & Hsent & Hparcels & Hx & Hk & Hnew).
  exists id. split; [exact Hsent|]. intros oid -> Hparse.
  exists x. split; [|by split].
  unfold serve, get_parcel. rewrite (parse_isValid _ _ Hparse).
  unfold ObjectId_new. rewrite Hparse.
  unfold_monad. unfold coll_findOne. world_simpl. rewrite Hparcels.
  rewrite (find_first_snoc (VOid oid) (parcels s) x) by (done || discriminate).
  reflexivity.
Qed.

Lemma post_parcels_then_get_witness :
  exists p,
    sent (serve (get_parcel (sample_request "64b7f0c2a1b2c3d4e5f60004" None ∅))
            (store (serve (post_parcels parcel_booking) sample_db sample_clock))
            sample_clock) = Some (200, BObj p) /\
    p !! "created_by" = Some (VStr "bob@example.com").
Proof.
  destruct (post_parcels_then_get parcel_booking
              (sample_request "64b7f0c2a1b2c3d4e5f60004" None ∅) sample_db
              sample_clock sample_clock) as (id & Hsent & Hget); [exact I|].
  assert (Hid : id = oid_of "64b7f0c2a1b2c3d4e5f60004").
  { pose proof (f_equal (fun r : option (nat * body) =>
                            match r with
                            | Some (_, BObj d) => d !! "insertedId"
                            | _ => None
                            end) Hsent) as H.
    vm_compute in H. injection H as <-. reflexivity. }
  destruct (Hget _ Hid) as (p & Hp & _ & Hk); [reflexivity|].
  exists p. split; [exact Hp|]. by rewrite Hk.
Defined.

(** ** POST /tracking *)




(** ** The token the verifier checks *)

Lemma split_no_sep (sep : ascii) (t : string) :
  sep ∉ list_ascii_of_string t -> split sep t = [t].
Proof.
  induction t as [|c t IH]; simpl; [reflexivity|].
  intros Hnot. apply not_elem_of_cons in Hnot as [Hne Hnot].
  destruct (Ascii.eqb_spec c sep) as [->|_]; [congruence|].
  by rewrite IH.
Qed.

Lemma split_until_sep (sep : ascii) (t rest : string) :
  sep ∉ list_ascii_of_string t ->
  split sep (t +:+ String sep rest) = t :: split sep rest.
Proof.
  induction t as [|c t IH]; simpl.
  - intros _. by rewrite Ascii.eqb_refl.
  - intros Hnot. apply not_elem_of_cons in Hnot as [Hne Hnot].
    destruct (Ascii.eqb_spec c sep) as [->|_]; [congruence|].
    change (String.append t (String sep rest)) with (t +:+ String sep rest).
    by rewrite IH.
Qed.

(** X18. The token the verifier hands to the identity provider is the text
    between "Bearer " and the next space: for a header "Bearer t", and for
    a header "Bearer t" followed by a space and anything, with t non-empty
    and free of spaces, the one verification call is on t. *)
Theorem verifyFBToken_checks_the_bearer_token :
  forall (verifyIdToken : string -> option doc) (req : request)
         (next : request -> M unit) (s : db) (clk : nat -> Z)
         (t rest : string),
    t <> "" ->
    " "%char ∉ list_ascii_of_string t ->
    authorization req = Some ("Bearer " +:+ t) \/
    authorization req = Some ("Bearer " +:+ t +:+ " " +:+ rest) ->
    token_of (authorization req) = Some t /\
    (verifyIdToken t = None ->
     log (serve (verifyFBToken verifyIdToken req next) s clk)
     = [EVerifyIdToken t; EConsoleError; ERes 403 forbidden_token]) /\
    (forall claims,
       verifyIdToken t = Some claims ->
       serve (verifyFBToken verifyIdToken req next) s clk
       = snd (detach (next (set_user claims req)) (verified_world t s clk))).
Proof.
  intros vt req next s clk t rest Hne Hsp Hhdr.
  assert (Hbearer : " "%char ∉ list_ascii_of_string "Bearer").
  { intros Hin%list_elem_of_In. simpl in Hin. intuition discriminate. }
  assert (Htok : token_of (authorization req) = Some t).
  { unfold token_of. destruct Hhdr as [-> | ->].
    - change (default "" (Some ("Bearer " +:+ t)))
        with ("Bearer" +:+ String " " t).
      by rewrite split_until_sep, split_no_sep.
    - change (default "" (Some ("Bearer " +:+ t +:+ " " +:+ rest)))
        with ("Bearer" +:+ String " " (t +:+ String " " rest)).
      by rewrite !split_until_sep. }
  assert (Hpre : startsWith "Bearer " (authorization req) = true).
  { destruct Hhdr as [-> | ->]; unfold startsWith; cbv [String.append];
      simpl; by destruct t. }
  split; [exact Htok|]. split.
  - intros Hv.
    by destruct (verifyFBToken_forbidden vt req s clk next t Hpre Htok Hne Hv)
      as (_ & Hlog & _).
  - intros claims Hv.
    exact (verifyFBToken_accepts vt req s clk next t claims Hpre Htok Hne Hv).
Qed.

Lemma verifyFBToken_checks_the_bearer_token_witness :
  token_of (Some "Bearer alice-token trailing words") = Some "alice-token".
Proof.
  destruct (verifyFBToken_checks_the_bearer_token sample_verifyIdToken
              (mkRequest (Some "Bearer alice-token trailing words") "" None ∅
                 None)
              (fun _ => mret tt) sample_db sample_clock
              "alice-token" "trailing words") as [H _].
  - discriminate.
  - intros Hin%list_elem_of_In. simpl in Hin. intuition discriminate.
  - right. reflexivity.
  - exact H.
Defined.

(** ** The earlier versions of the listings *)

(** X19. For a request that passes the token verifier, GET /payments
    answers what the route of the earlier version, which had no verifier
    and no guard, answers to the same query whenever the email of the
    token is the email of the query; when they differ the earlier version
    answers 200 with the payment records of the queried email and the
    present one answers 403. *)
Theorem get_payments_guard_vs_open :
  forall (verifyIdToken : string -> option doc) (req : request) (s : db)
         (clk : nat -> Z) (t : string) (claims : doc),
    startsWith "Bearer " (authorization req) = true ->
    token_of (authorization req) = Some t ->
    t <> "" ->
    verifyIdToken t = Some claims ->
    let guarded := serve (route_get_payments verifyIdToken req) s clk in
    let open := serve (get_payments_open req) s clk in
    (exists recs,
       sent open = Some (200, BArr recs) /\
       listing (payments_query (query_email req)) "paid_at" (payments s) recs) /\
    (claims !! "email" = (VStr <$> query_email req) -> sent guarded = sent open) /\
    (claims !! "email" <> (VStr <$> query_email req) ->
     status guarded = Some 403).
Proof.
  intros vt req s clk t claims Hpre Ht Hne Hv guarded open.
  assert (Hopen : sent open
                  = Some (200, BArr (coll_find (payments_query (query_email req))
                                       (Some "paid_at") None (payments s)))).
  { subst open. unfold serve, get_payments_open. unfold_monad. world_simpl.
    reflexivity. }
  split; [|split].
  - eexists. split; [exact Hopen|]. apply coll_find_sorted_spec.
  - intros Hsame. rewrite Hopen.
    by destruct (get_payments_match vt req s clk t claims Hpre Ht Hne Hv Hsame).
  - intros Hdiff. subst guarded. unfold route_get_payments.
    rewrite (verifyFBToken_accepts vt req s clk get_payments t claims
               Hpre Ht Hne Hv).
    unfold get_payments, verified_world.
    change (req_user (set_user claims req)) with (Some claims).
    change (query_email (set_user claims req)) with (query_email req).
    change (Some claims ≫= (fun u : doc => u !! "email"))
      with (claims !! "email").
    rewrite bool_decide_true by exact Hdiff.
    unfold_monad. world_simpl. reflexivity.
Qed.

Lemma get_payments_guard_vs_open_witness :
  sent (serve (route_get_payments sample_verifyIdToken own_request)
          sample_db sample_clock)
  = sent (serve (get_payments_open own_request) sample_db sample_clock).
Proof.
  destruct (get_payments_guard_vs_open sample_verifyIdToken own_request
              sample_db sample_clock "alice-token"
              {[ "email" := VStr "alice@example.com" ]})
    as (_ & Hsame & _); [first [reflexivity|discriminate]..|].
  apply Hsame. reflexivity.
Defined.

(** X20. GET /parcels?email= merges the two routes of the first version:
    with a non-empty email it lists the parcels GET /parcels/user listed,
    without one the parcels GET /parcels listed, now latest first. The two
    differ without an email: GET /parcels/user then put the undefined email
    into the filter and listed the parcels that have no creator. *)
Theorem get_parcels_merges_first_version :
  forall (req : request) (s : db) (clk : nat -> Z),
    let merged := records (serve (get_parcels req) s clk) in
    let by_user := records (serve (get_parcels_user req) s clk) in
    let all := records (serve (get_parcels_all req) s clk) in
    all = parcels s /\
    (truthy_str (query_email req) = true -> merged ≡ₚ by_user) /\
    (truthy_str (query_email req) = false -> merged ≡ₚ all) /\
    (query_email req = None -> by_user = List.filter no_creator (parcels s)) /\
    Sorted (desc_by "creation_date") merged.
Proof.
  intros req s clk merged by_user all.
  assert (Hm : merged = coll_find (parcels_query (query_email req))
                          (Some "creation_date") None (parcels s)).
  { subst merged. unfold serve, get_parcels, records. unfold_monad.
    world_simpl. reflexivity. }
  assert (Hu : by_user = List.filter
                 (matches (FEq "created_by" (bson (VStr <$> query_email req))))
                 (parcels s)).
  { subst by_user. unfold serve, get_parcels_user, records. unfold_monad.
    world_simpl. reflexivity. }
  assert (Ha : all = parcels s).
  { subst all. unfold serve, get_parcels_all, records. unfold_monad.
    world_simpl. unfold coll_find. apply filter_FAll. }
  split; [exact Ha|]. rewrite Hm, Hu, Ha. unfold parcels_query.
  split; [|split; [|split]].
  - intros Hq. rewrite Hq, coll_find_all_Permutation.
    destruct (query_email req) as [e|]; [reflexivity|discriminate].
  - intros Hq. rewrite Hq, coll_find_all_Permutation. by rewrite filter_FAll.
  - intros ->. reflexivity.
  - apply coll_find_all_Sorted.
Qed.

Lemma get_parcels_merges_first_version_witness :
  records (serve (get_parcels
                    (sample_request "" (Some "alice@example.com") ∅))
             sample_db sample_clock)
  ≡ₚ records (serve (get_parcels_user
                       (sample_request "" (Some "alice@example.com") ∅))
                sample_db sample_clock).
Proof.
  destruct (get_parcels_merges_first_version
              (sample_request "" (Some "alice@example.com") ∅)
              sample_db sample_clock) as (_ & Hmerged & _).
  apply Hmerged. reflexivity.
Defined.

(** ** POST /users, twice *)

Lemma matches_bson (k : string) (x : option value) (d : doc) :
  d !! k = x -> matches (FEq k (bson x)) d = true.
Proof.
  intros <-. destruct (d !! k) as [v|] eqn:Hk; simpl.
  - destruct v; simpl; rewrite ?Hk; try reflexivity;
      by apply bool_decide_eq_true.
  - by rewrite Hk.
Qed.

(** X21. Posting the same new user twice adds one record: for a body whose
    email no stored user has (and that brings no [_id] a stored user has),
    the first POST /users is answered 201 and appends the user, the second
    is answered 200, appends nothing and sets the last_log_in of the user
    the first one appended. *)
Theorem post_users_twice :
  forall (req : request) (s : db) (clk clk' : nat -> Z),
    find_first (FEq "email" (bson (req_body req !! "email"))) (users s) = None ->
    id_free (req_body req) (users s) ->
    let w1 := serve (post_users req) s clk in
    let w2 := serve (post_users req) (store w1) clk' in
    exists u,
      status w1 = Some 201 /\
      users (store w1) = users s ++ [u] /\
      status w2 = Some 200 /\
      users (store w2)
      = users s ++ [<["last_log_in" := VStr (toISOString (clk' 0))]> u].
Proof.
  intros req s clk clk' Hnew Hfree w1 w2.
  assert (H1 : exists id u,
            sent w1 = Some (201, user_created id) /\
            users (store w1) = users s ++ [u] /\
            (forall k, k <> "_id" -> u !! k = req_body req !! k)).
  { subst w1. unfold serve, post_users. unfold_monad. unfold coll_findOne.
    world_simpl. rewrite Hnew. cbn [fmap option_fmap option_map snd].
    world_simpl.
    match goal with
    | |- context [coll_insertOne ?f _ _] =>
        destruct (coll_insertOne_free f _ _ Hfree) as (id & u & -> & Hid & Hk)
    end.
    world_simpl. exists id, u. by repeat split. }
  destruct H1 as (id & u & Hsent1 & Husers1 & Hk).
  exists u. split; [unfold status; by rewrite Hsent1|].
  split; [exact Husers1|].
  assert (Hfind : find_first (FEq "email" (bson (req_body req !! "email")))
                    (users (store w1)) = Some (length (users s), u)).
  { rewrite Husers1. unfold find_first in *. rewrite list_find_app_r by exact Hnew.
    simpl. rewrite decide_True; [reflexivity|].
    apply matches_bson. by apply Hk. }
  subst w2. unfold serve, post_users. unfold_monad.
  unfold coll_findOne, coll_updateOne. world_simpl.
  rewrite Hfind. cbn [fmap option_fmap option_map snd]. world_simpl.
  rewrite Hfind. world_simpl. unfold status. world_simpl.
  split; [reflexivity|].
  rewrite Husers1, set_field_insert.
  by rewrite insert_app_r_alt, Nat.sub_diag by lia.
Qed.

Lemma post_users_twice_witness :
  let w1 := serve (post_users new_user_request) sample_db sample_clock in
  status (serve (post_users new_user_request) (store w1) sample_clock)
  = Some 200.
Proof.
  destruct (post_users_twice new_user_request sample_db sample_clock
              sample_clock) as (u & _ & _ & H & _);
    [reflexivity|exact I|exact H].
Defined.

(** ** POST /payments: the parcel and the payment go together *)

Lemma ObjectId_new_cases (x : option value) (s : db) (clk : nat -> Z) :
  (exists e, ObjectId_new x (new_world s clk) = (Throw e, new_world s clk)) \/
  (exists o m, ObjectId_new x (new_world s clk)
               = (Ret o, set_minted m (new_world s clk))).
Proof.
  unfold ObjectId_new, ObjectId_generate.
  destruct x as [[| | |id| |]|]; try (left; eexists; reflexivity);
    try (right; eexists _, _; reflexivity).
  - destruct (ObjectId_parse id) as [n|]; [right|left; eexists; reflexivity].
    by exists n, 0%N.
Qed.

(** X22. POST /payments never does half of its work on a store that
    answers its calls: whatever the request, either the store is left
    exactly as it was, or one parcel that was not yet "paid" is marked
    "paid", one payment record with the request's parcelId is appended,
    nothing else changes and the answer is 201. *)
Theorem post_payments_all_or_nothing :
  forall (req : request) (s : db) (clk : nat -> Z),
    let w := serve (post_payments req) s clk in
    store w = s \/
    exists i p id pay,
      parcels s !! i = Some p /\
      p !! "payment_status" <> Some (VStr "paid") /\
      parcels (store w) = <[i := <["payment_status" := VStr "paid"]> p]> (parcels s) /\
      payments (store w) = payments s ++ [pay] /\
      pay !! "_id" = Some id /\
      pay !! "parcelId" = req_body req !! "parcelId" /\
      users (store w) = users s /\ riders (store w) = riders s /\
      tracking (store w) = tracking s /\
      sent w = Some (201, payment_recorded id).
Proof.
  intros req s clk w. subst w. unfold serve, post_payments.
  assert (Hdb : mkDb (users s) (riders s) (parcels s) (payments s) (tracking s) = s)
    by (by destruct s).
  destruct (negb (truthy (req_body req !! "parcelId"))
            || negb (truthy (req_body req !! "email"))
            || negb (truthy (req_body req !! "amount"))) eqn:Hguard.
  { left. unfold_monad. world_simpl. reflexivity. }
  apply orb_false_elim in Hguard as [Hguard _].
  apply orb_false_elim in Hguard as [Hp _]. apply negb_false_iff in Hp.
  destruct (ObjectId_new_cases (req_body req !! "parcelId") s clk)
    as [[e Hnew]|(oid & m & Hnew)].
  { left. unfold_monad. rewrite Hnew. world_simpl. reflexivity. }
  unfold_monad. rewrite Hnew. unfold coll_updateOne. world_simpl.
  destruct (find_first (FEq "_id" (VOid oid)) (parcels s)) as [[i p]|] eqn:Hfind.
  2:{ left. world_simpl. exact Hdb. }
  destruct (find_first_Some _ _ _ _ Hfind) as [Hi _].
  destruct (decide (({[ "payment_status" := VStr "paid" ]} ∪ p : doc) = p))
    as [Hsame|Hdiff].
  { left. world_simpl. rewrite Hsame, list_insert_id by exact Hi. exact Hdb. }
  right. world_simpl. unfold coll_insertOne. rewrite paymentDoc_no_id.
  world_simpl. exists i, p. eexists _, _.
  split; [exact Hi|]. split; [by rewrite <- set_field_same_iff|].
  split; [by rewrite set_field_insert|]. split; [reflexivity|].
  split; [apply lookup_insert_eq|].
  rewrite lookup_insert_ne, paymentDoc_parcelId by done.
  split; [|by repeat split].
  destruct (req_body req !! "parcelId"); [reflexivity|discriminate].
Qed.

(** ** Which requests get no answer *)

Lemma ObjectId_new_refused (x : option value) (w : world) :
  ObjectId_refuses x = true -> exists e, ObjectId_new x w = (Throw e, w).
Proof.
  unfold ObjectId_refuses, ObjectId_isValid, ObjectId_new.
  destruct x as [[| | |id| |]|]; try discriminate; eauto.
  destruct (ObjectId_parse id); [discriminate|eauto].
Qed.

Lemma ObjectId_new_accepted (x : option value) (s : db) (clk : nat -> Z) :
  ObjectId_refuses x = false ->
  exists o m, ObjectId_new x (new_world s clk)
              = (Ret o, set_minted m (new_world s clk)).
Proof.
  intros Href. destruct (ObjectId_new_cases x s clk) as [[e Hnew]|]; [|done].
  revert Href Hnew. unfold ObjectId_refuses, ObjectId_isValid, ObjectId_new.
  destruct x as [[| | |id| |]|]; try discriminate.
  destruct (ObjectId_parse id); discriminate.
Qed.

(** X23. On a store that answers its calls (refusing only an insert under
    a taken [_id]) and for a request whose body Express has parsed to an
    object, the handlers of the three routes that can end without sending
    a response do so in these cases and no others: PATCH /riders/:id when
    the id is not a well-formed identifier, POST /riders when the body
    brings an [_id] a stored rider has, POST /payments when the required
    fields are there and the parcelId is a value [new ObjectId] refuses.
    (A store that fails and a request without a parsed body are not
    covered.) *)
Theorem unanswered_requests :
  forall (req : request) (s : db) (clk : nat -> Z),
    (sent (serve (patch_riders req) s clk) = None
     <-> ObjectId_isValid (param_id req) = false) /\
    (sent (serve (post_riders req) s clk) = None
     <-> id_clash (req_body req) (riders s)) /\
    (sent (serve (post_payments req) s clk) = None
     <-> truthy (req_body req !! "parcelId") && truthy (req_body req !! "email")
           && truthy (req_body req !! "amount") = true /\
         ObjectId_refuses (req_body req !! "parcelId") = true).
Proof.
  intros req s clk. split; [|split].
  - unfold serve, patch_riders, ObjectId_new, ObjectId_isValid.
    destruct (ObjectId_parse (param_id req)) as [oid|].
    + unfold mbind, M_bind, mret, M_ret, detach, res_json.
      rewrite updateOne_run. world_simpl.
      destruct (bool_decide _); [rewrite updateOne_run|]; world_simpl;
        split; discriminate.
    + by split.
  - unfold serve, post_riders.
    destruct (id_free_or_clash (req_body req) (riders s)) as [Hfree|Hclash].
    + unfold_monad. world_simpl.
      match goal with
      | |- context [coll_insertOne ?f _ _] =>
          destruct (coll_insertOne_free f _ _ Hfree) as (id & u & Hins & _)
      end.
      rewrite Hins. world_simpl. split; [discriminate|].
      intros Hclash. by rewrite (coll_insertOne_clash _ _ _ Hclash) in Hins.
    + unfold_monad. world_simpl.
      rewrite coll_insertOne_clash by exact Hclash. by split.
  - unfold serve, post_payments.
    destruct (truthy (req_body req !! "parcelId")) eqn:Hp;
      [|unfold_monad; world_simpl; split; [discriminate|by intros [? _]]].
    destruct (truthy (req_body req !! "email")) eqn:He;
      [|unfold_monad; world_simpl; split; [discriminate|by intros [? _]]].
    destruct (truthy (req_body req !! "amount")) eqn:Ha;
      [|unfold_monad; world_simpl; split; [discriminate|by intros [? _]]].
    cbn [negb orb andb].
    destruct (ObjectId_refuses (req_body req !! "parcelId")) eqn:Href.
    + destruct (ObjectId_new_refused _ (new_world s clk) Href) as [e Hnew].
      unfold_monad. rewrite Hnew. world_simpl. by split.
    + destruct (ObjectId_new_accepted _ s clk Href) as (oid & m & Hnew).
      unfold_monad. rewrite Hnew. unfold coll_updateOne, coll_insertOne.
      world_simpl. split; [|by intros [_ ?]].
      destruct (find_first _ _) as [[i p]|]; world_simpl;
        [destruct (decide _); world_simpl|]; rewrite ?paymentDoc_no_id;
        world_simpl; discriminate.
Qed.

Lemma unanswered_requests_witness :
  sent (serve (patch_riders (accept_request "rider-7")) sample_db
          sample_clock) = None.
Proof.
  destruct (unanswered_requests (accept_request "rider-7") sample_db
              sample_clock) as [[_ Hpatch] _].
  apply Hpatch. reflexivity.
Defined.

(** * Requests one after the other *)

Lemma find_first_update (f : filter) (l : list doc) (i : nat) (d d' : doc) :
  find_first f l = Some (i, d) ->
  matches f d' = true ->
  find_first f (<[i := d']> l) = Some (i, d').
Proof.
  unfold find_first. intros (Hi & _ & Hbefore)%list_find_Some Hd'.
  apply list_find_Some. split; [|split; [exact Hd'|]].
  - apply list_lookup_insert_eq. by eapply lookup_lt_Some.
  - intros j y Hj Hlt. rewrite list_lookup_insert_ne in Hj by lia. eauto.
Qed.

Lemma matches_id_set (o : N) (k : string) (v : value) (d : doc) :
  k <> "_id" ->
  matches (FEq "_id" (VOid o)) d = true ->
  matches (FEq "_id" (VOid o)) (<[k := v]> d) = true.
Proof. intros Hk. simpl. by rewrite lookup_insert_ne. Qed.

(** ** POST /payments, then the parcel and the same payment again *)

(** X24. Once POST /payments has recorded a payment for a stored parcel
    that was not yet "paid", GET /parcels/:id of that parcel is answered
    with the parcel marked "paid", and the same POST /payments sent again
    is answered 404 and changes nothing: no second payment record. *)
Theorem post_payments_settles_the_parcel :
  forall (req : request) (s : db) (clk : nat -> Z) (id : string) (p : doc),
    req_body req !! "parcelId" = Some (VStr id) ->
    refers_to (Some (VStr id)) (parcels s) = Some p ->
    p !! "payment_status" <> Some (VStr "paid") ->
    truthy (req_body req !! "email") = true ->
    truthy (req_body req !! "amount") = true ->
    let s1 := store (serve (post_payments req) s clk) in
    forall (req' : request) (clk' : nat -> Z),
      (param_id req' = id ->
       sent (serve (get_parcel req') s1 clk')
       = Some (200, BObj (<["payment_status" := VStr "paid"]> p))) /\
      sent (serve (post_payments req) s1 clk') = Some (404, already_paid) /\
      store (serve (post_payments req) s1 clk') = s1.
Proof.
  intros req s clk id p Hid (oid & i & Hparse & Hfind)%refers_to_str
    Hst Hem Ham s1 req' clk'.
  assert (Hfind1 : find_first (FEq "_id" (VOid oid)) (parcels s1)
                   = Some (i, <["payment_status" := VStr "paid"]> p)).
  { subst s1. unfold serve, post_payments.
    rewrite Hem, Ham, Hid. unfold ObjectId_new. rewrite Hparse.
    assert (truthy (Some (VStr id)) = true) as ->
      by (by apply (names_oid_truthy _ oid)).
    unfold_monad. unfold coll_updateOne. world_simpl. rewrite Hfind.
    rewrite decide_False by (by rewrite set_field_same_iff).
    world_simpl. unfold coll_insertOne. rewrite paymentDoc_no_id.
    world_simpl. rewrite set_field_insert.
    apply (find_first_update _ _ _ p); [exact Hfind|].
    apply matches_id_set; [done|].
    by destruct (find_first_Some _ _ _ _ Hfind). }
  clearbody s1. destruct (find_first_Some _ _ _ _ Hfind1) as [Hi1 _].
  split; [intros Hreq'|].
  - unfold serve, get_parcel. rewrite Hreq', (parse_isValid _ _ Hparse).
    unfold ObjectId_new. rewrite Hparse.
    unfold_monad. unfold coll_findOne. world_simpl. by rewrite Hfind1.
  - unfold serve, post_payments.
    rewrite Hem, Ham, Hid. unfold ObjectId_new. rewrite Hparse.
    assert (truthy (Some (VStr id)) = true) as ->
      by (by apply (names_oid_truthy _ oid)).
    unfold_monad. unfold coll_updateOne. world_simpl. rewrite Hfind1.
    assert (Hsame : ({[ "payment_status" := VStr "paid" ]}
                       ∪ <["payment_status" := VStr "paid"]> p : doc)
                    = <["payment_status" := VStr "paid"]> p)
      by (rewrite set_field_same_iff; apply lookup_insert_eq).
    rewrite decide_True by exact Hsame. world_simpl.
    rewrite Hsame, list_insert_id by exact Hi1.
    split; [reflexivity|]. by destruct s1.
Qed.

Lemma post_payments_settles_the_parcel_witness :
  status (serve (post_payments (sample_payment sample_parcel_id))
            (store (serve (post_payments (sample_payment sample_parcel_id))
                      sample_db sample_clock))
            sample_clock) = Some 404.
Proof.
  destruct (post_payments_settles_the_parcel
              (sample_payment sample_parcel_id) sample_db sample_clock
              sample_parcel_id sample_parcel)
    with (req' := sample_request sample_parcel_id None ∅)
         (clk' := sample_clock) as (_ & Hsent & _);
    [reflexivity|reflexivity|discriminate|reflexivity|reflexivity|].
  unfold status. rewrite Hsent. reflexivity.
Defined.

(** ** PATCH /riders/:id, then the riders' listings *)

Lemma insert_other_ids (l : list doc) (i : nat) (r r1 d : doc) :
  NoDup (doc_ids l) ->
  l !! i = Some r ->
  d <> r1 ->
  d ∈ <[i := r1]> l ->
  d ∈ l /\ d !! "_id" <> r !! "_id".
Proof.
  intros Hnd Hi Hd [j Hj]%list_elem_of_lookup.
  destruct (decide (j = i)) as [->|Hji].
  - rewrite list_lookup_insert_eq in Hj by (by eapply lookup_lt_Some).
    congruence.
  - rewrite list_lookup_insert_ne in Hj by done.
    split; [by eapply list_elem_of_lookup_2|].
    intros Hid. apply Hji.
    apply (NoDup_lookup (doc_ids l) j i (d !! "_id")); [exact Hnd|..];
      unfold doc_ids; rewrite list_lookup_fmap.
    + by rewrite Hj.
    + by rewrite Hi, Hid.
Qed.

Lemma insert_keeps_others (l : list doc) (i : nat) (r r1 d : doc) :
  l !! i = Some r ->
  d !! "_id" <> r !! "_id" ->
  d ∈ l -> d ∈ <[i := r1]> l.
Proof.
  intros Hi Hid [j Hj]%list_elem_of_lookup.
  apply list_elem_of_lookup. exists j.
  rewrite list_lookup_insert_ne; [exact Hj|].
  intros ->. congruence.
Qed.

Lemma patch_riders_accepted_store (req : request) (s : db) (clk : nat -> Z)
    (oid : N) (i : nat) (r : doc) :
  ObjectId_parse (param_id req) = Some oid ->
  find_first (FEq "_id" (VOid oid)) (riders s) = Some (i, r) ->
  req_body req !! "status" = Some (VStr "accepted") ->
  riders (store (serve (patch_riders req) s clk))
  = <[i := <["status" := VStr "accepted"]> r]> (riders s).
Proof.
  intros Hparse Hfind Hst. unfold serve, patch_riders, ObjectId_new.
  rewrite Hparse, Hst.
  unfold mbind, M_bind, mret, M_ret, detach, res_json.
  rewrite updateOne_run. world_simpl.
  rewrite bool_decide_eq_true_2 by reflexivity.
  rewrite updateOne_run. world_simpl.
  by rewrite coll_updateOne_field, Hfind.
Qed.

(** X25. After PATCH /riders/:id with status "accepted" on a stored rider,
    in a well-keyed riders collection, GET /riders/active lists that rider
    with the new status, and GET /riders/pending lists what it listed
    before the request without the rider of that [_id]: a rider that was
    listed pending no longer is, and the other riders are listed as
    before. *)
Theorem accepted_rider_is_listed_active :
  forall (req : request) (s : db) (clk : nat -> Z) (r : doc),
    refers_to (Some (VStr (param_id req))) (riders s) = Some r ->
    req_body req !! "status" = Some (VStr "accepted") ->
    well_keyed (riders s) ->
    let s1 := store (serve (patch_riders req) s clk) in
    let r1 := <["status" := VStr "accepted"]> r in
    forall (req' : request) (clk' : nat -> Z),
      let before := records (serve (get_riders_pending req') s clk') in
      (exists recs,
         sent (serve (get_riders_active req') s1 clk') = Some (200, BArr recs) /\
         r1 ∈ recs /\ r1 !! "_id" = r !! "_id") /\
      (exists recs,
         sent (serve (get_riders_pending req') s1 clk') = Some (200, BArr recs) /\
         (forall d, d ∈ recs <-> d ∈ before /\ d !! "_id" <> r !! "_id")).
Proof.
  intros req s clk r (oid & i & Hparse & Hfind)%refers_to_str Hst [Hnd _]
    s1 r1 req' clk' before.
  destruct (find_first_Some _ _ _ _ Hfind) as [Hi _].
  pose proof (patch_riders_accepted_store req s clk oid i r Hparse Hfind Hst)
    as Hs1.
  fold s1 r1 in Hs1. clearbody s1.
  assert (Hpending1 : matches (FEq "status" (VStr "pending")) r1 = false).
  { subst r1. simpl. rewrite lookup_insert_eq.
    by rewrite bool_decide_eq_false_2. }
  split.
  - eexists. unfold serve, get_riders_active. unfold_monad. world_simpl.
    split; [reflexivity|]. split; [|by apply lookup_insert_ne].
    apply coll_find_sorted_spec. split.
    + rewrite Hs1. apply list_elem_of_lookup. exists i.
      apply list_lookup_insert_eq. by eapply lookup_lt_Some.
    + subst r1. simpl. rewrite lookup_insert_eq.
      by apply bool_decide_eq_true_2.
  - eexists. subst before.
    unfold records, serve, get_riders_pending. unfold_monad. world_simpl.
    split; [reflexivity|]. intros d.
    rewrite (proj2 (proj2 (coll_find_sorted_spec _ _ _)) d).
    rewrite (proj2 (proj2 (coll_find_sorted_spec _ _ _)) d).
    rewrite Hs1. split.
    + intros [Hd Hm].
      destruct (insert_other_ids _ i r r1 d Hnd Hi) as [Hin Hid];
        [congruence|exact Hd|]. by repeat split.
    + intros [[Hd Hm] Hid]. split; [|exact Hm].
      by eapply insert_keeps_others.
Qed.

Lemma accepted_rider_is_listed_active_witness :
  exists recs,
    sent (serve (get_riders_pending (sample_request "" None ∅))
            (store (serve (patch_riders (accept_request sample_rider_id))
                      sample_db sample_clock))
            sample_clock) = Some (200, BArr recs) /\
    sample_rider ∉ recs.
Proof.
  destruct (accepted_rider_is_listed_active
              (accept_request sample_rider_id) sample_db sample_clock
              sample_rider)
    with (req' := sample_request "" None ∅) (clk' := sample_clock)
    as [_ (recs & Hsent & Hrecs)];
    [reflexivity|reflexivity| |].
  { split; [apply NoDup_singleton|repeat constructor; eexists; reflexivity]. }
  exists recs. split; [exact Hsent|].
  intros [_ Hid]%Hrecs. by apply Hid.
Defined.

(** * Sample runs of the routing table *)

Lemma routes_write_their_collections_only_witness :
  users (store (serve (sample_handler POST_payments
                         (sample_payment sample_parcel_id))
                  sample_db sample_clock))
  = users sample_db.
Proof.
  apply (routes_write_their_collections_only sample_verifyIdToken
           sample_RegExp_i sample_paymentIntents_create POST_payments Users).
  reflexivity.
Defined.

Lemma get_routes_read_only_witness :
  store (serve (sample_handler GET_parcel
                  (sample_request sample_parcel_id None ∅))
           sample_db sample_clock)
  = sample_db.
Proof.
  apply (get_routes_read_only sample_verifyIdToken sample_RegExp_i
           sample_paymentIntents_create GET_parcel).
  left. reflexivity.
Defined.

Lemma routes_keep_collections_well_keyed_witness :
  db_well_keyed
    (store (serve (sample_handler POST_parcels parcel_booking)
              sample_db sample_clock)).
Proof.
  apply (routes_keep_collections_well_keyed sample_verifyIdToken
           sample_RegExp_i sample_paymentIntents_create POST_parcels).
  intros c. destruct c; split;
    first [ apply NoDup_nil_2 | apply NoDup_singleton
          | repeat constructor; eexists; reflexivity ].
Defined.

Lemma routes_always_answer_witness :
  is_Some
    (sent (serve (sample_handler DELETE_parcel
                    (sample_request sample_parcel_id None ∅))
             sample_db sample_clock)).
Proof.
  apply (routes_always_answer sample_verifyIdToken sample_RegExp_i
           sample_paymentIntents_create DELETE_parcel);
    discriminate.
Defined.

(** ** POST /create-payment-intent *)

(** X26. POST /create-payment-intent asks the payment provider for an
    intent of the body's [amountInCents] and answers 200 with the client
    secret it gets, or 500 with the provider's error message when the
    provider refuses; either way the handler ends normally and never calls
    the store. *)
Theorem create_payment_intent_outcomes :
  forall (verifyIdToken : string -> option doc)
         (RegExp_i : string -> option regexp)
         (paymentIntents_create : option value -> outcome value)
         (req : request) (s : db) (clk : nat -> Z),
    let w := serve (handler verifyIdToken RegExp_i paymentIntents_create
                      POST_create_payment_intent req) s clk in
    match paymentIntents_create (req_body req !! "amountInCents") with
    | Ret secret => sent w = Some (200, BObj {[ "clientSecret" := secret ]})
    | Throw e => sent w = Some (500, msg "error" (err_message e))
    end /\
    rejected w = None /\ db_calls w = [] /\ store w = s.
Proof.
  intros vt re pi req s clk w. subst w.
  unfold serve, handler, post_create_payment_intent,
    stripe_paymentIntents_create, db_calls.
  unfold_monad. world_simpl.
  destruct (pi (req_body req !! "amountInCents")) as [secret|e]; world_simpl;
    by repeat split.
Qed.
